(** * NextTrust SDK: rule engine and scoring service

    A shallow embedding of the policy evaluation core of the NextTrust SDK
    and the properties of it that the specification states.

    - [JS]: the JavaScript values the code handles, truthiness, property
      reads, exceptions.
    - [RuleEngine]: backend/services/rule-engine.js, the rule store
      ([loadRules], [_validateRules], [_loadDefaultRules],
      [addTemporaryRule]) and the evaluation pass ([evaluateRules],
      [_evaluateRule], [_createSafeContext], [_evaluateCondition]).  The
      pass is stated over the host's Function constructor.
    - [MiniJS]: an interpreter of the JavaScript expressions rule
      conditions are written in, to run the pass on concrete rules.
    - [Constants], [ScoringService]: shared/constants/index.js and
      backend/services/scoring.js, over data typed as in
      shared/types/index.js.
    - [Identity]: the two calls of backend/routes/identity.js that chain
      the pass and the scorer.
    - [RuleStore]: the queries of the rule store ([getActiveRules],
      [getRulesByAction], [getStats]) and [removeTemporaryRule].
    - [Server], [Route]: the services backend/server.js builds and the
      handler of [POST /verify] on them.

    Conventions of the embedding.
    - JavaScript numbers are idealised as rationals ([Q]): no rounding,
      no NaN or infinities inside values.  A comparison whose operand
      converts to NaN is modelled where it arises (it is [false]).
    - JavaScript strings are modelled by [string]; lengths and character
      classes agree with JavaScript on ASCII text.
    - Objects are association lists in insertion order, with unique keys.
    - Exceptions are explicit: a fallible function returns an [outcome].
    - The clock is an argument: [now] where the code reads [Date.now()]
      or builds a [Date]. *)

From Stdlib Require Import String Ascii List Bool ZArith QArith Qabs Qminmax Lia Lqa.
Import ListNotations.

Set Warnings "-register-all".

Local Open Scope string_scope.
Local Open Scope list_scope.

(** String concatenation, kept apart from list append. *)
Infix "+++" := String.append (right associativity, at level 60).

(** ** JavaScript values *)

Module JS.

Inductive value : Type :=
| VUndefined
| VNull
| VBool (b : bool)
| VNum (q : Q)
| VStr (s : string)
| VArr (items : list value)
| VObj (props : list (string * value)).

(** [Boolean(v)], the truthiness used by [!], [&&], [||] and [if]. *)
Definition truthy (v : value) : bool :=
  match v with
  | VUndefined | VNull => false
  | VBool b => b
  | VNum q => negb (Qeq_bool q 0)
  | VStr s => negb (s =? EmptyString)
  | VArr _ | VObj _ => true
  end.

(** [v === null || v === undefined] *)
Definition is_nullish (v : value) : bool :=
  match v with VUndefined | VNull => true | _ => false end.

(** [a || b] *)
Definition js_or (a b : value) : value := if truthy a then a else b.

(** [typeof v === 'number'] *)
Definition typeof_number (v : value) : bool :=
  match v with VNum _ => true | _ => false end.

Fixpoint lookup (k : string) (props : list (string * value)) : option value :=
  match props with
  | [] => None
  | (k', v) :: rest => if k' =? k then Some v else lookup k rest
  end.

(** Error messages.  Template literals are kept as structured terms: each
    constructor but [Msg] denotes a non-empty string built around its
    arguments, whose rendering (JSON.stringify, number formatting, the
    engine's own wording) no property below depends on. *)
Inductive message : Type :=
| Msg (s : string)
| CannotRead (base : value) (key : string)
| NotIterable (v : value)
| NotAFunction (key : string)
| NotDefined (name : string)
| InvalidRule (rule : value)
| InvalidRuleAction (action : value)
| InvalidRuleWeight (weight : value)
| InvalidRuleStructure
| RuleExists (id : value)
| FailedToEvaluate (id : value) (inner : message)
| ScoringFailed (inner : message).

(** Truthiness of a message used as a value ([if (result.error)]). *)
Definition message_truthy (m : message) : bool :=
  match m with
  | Msg s => negb (s =? EmptyString)
  | _ => true
  end.

Inductive error_kind : Type := TypeError | ReferenceError | SyntaxError | PlainError.

Record exn : Type := Exn { exn_kind : error_kind; exn_message : message }.

Inductive outcome (A : Type) : Type :=
| Normal (a : A)
| Throw (e : exn).
Arguments Normal {A} a.
Arguments Throw {A} e.

Definition bind {A B : Type} (m : outcome A) (f : A -> outcome B) : outcome B :=
  match m with
  | Normal a => f a
  | Throw e => Throw e
  end.

Definition throw_error {A : Type} (m : message) : outcome A :=
  Throw (Exn PlainError m).

(** [v.k] for the property names the engine itself reads ([id], [name],
    [condition], [weight], [action], [enabled], [temporary], [rules],
    [thresholds], [fingerprint], [behavioral], [facial], [sessionId],
    [timestamp], ...): none of them is defined on a built-in prototype, so
    the read is an own-property lookup, [undefined] on a primitive, and a
    TypeError on [null] and [undefined]. *)
Definition getp (v : value) (k : string) : outcome value :=
  match v with
  | VUndefined | VNull => Throw (Exn TypeError (CannotRead v k))
  | VObj props => Normal (match lookup k props with Some x => x | None => VUndefined end)
  | _ => Normal VUndefined
  end.

(** [for (const x of v)]: arrays and strings are iterable, the other
    values of the model are not. *)
Fixpoint chars (s : string) : list value :=
  match s with
  | EmptyString => []
  | String c rest => VStr (String c EmptyString) :: chars rest
  end.

Definition iterate (v : value) : outcome (list value) :=
  match v with
  | VArr items => Normal items
  | VStr s => Normal (chars s)
  | _ => Throw (Exn TypeError (NotIterable v))
  end.

(** [a === b] on primitives.  Two objects (or arrays) are equal only when
    they are the same reference; the model holds no references and takes
    two object operands to be distinct. *)
Definition strict_eq (a b : value) : bool :=
  match a, b with
  | VUndefined, VUndefined => true
  | VNull, VNull => true
  | VBool x, VBool y => Bool.eqb x y
  | VNum x, VNum y => Qeq_bool x y
  | VStr x, VStr y => x =? y
  | _, _ => false
  end.

(** [x < y] on numbers. *)
Definition Qlt_bool (x y : Q) : bool := negb (Qle_bool y x).

(** Setting a property: replaces the value in place, or appends the key. *)
Fixpoint set_prop (k : string) (v : value) (props : list (string * value))
  : list (string * value) :=
  match props with
  | [] => [(k, v)]
  | (k', v') :: rest =>
      if k' =? k then (k, v) :: rest else (k', v') :: set_prop k v rest
  end.

End JS.

Import JS.

Declare Scope js_scope.
Delimit Scope js_scope with js.
Notation "x <- m ;; k" := (bind m (fun x => k))
  (at level 61, m at next level, right associativity) : js_scope.
Notation "m ;;; k" := (bind m (fun _ => k))
  (at level 61, right associativity) : js_scope.
Local Open Scope js_scope.

Definition num (z : Z) : value := VNum (inject_Z z).

(** The double quote character, and a string literal of JavaScript source. *)
Definition dquote : string := String "034"%char EmptyString.
Definition quoted (s : string) : string := dquote +++ s +++ dquote.

(** ** The rule engine (backend/services/rule-engine.js) *)

Module RuleEngine.

Record t : Type := mk {
  rulesPath : string;
  rules : value;
  thresholds : value;
  lastLoaded : option string
}.

Definition default_thresholds : value :=
  VObj [("allow", num 80); ("review", num 50); ("deny", num 0)].

(** [constructor(rulesPath)] *)
Definition constructor (path : string) : t :=
  {| rulesPath := path;
     rules := VArr [];
     thresholds := default_thresholds;
     lastLoaded := None |}.

Definition rule (id name condition : string) (weight : Z) (action description : string)
  : value :=
  VObj [("id", VStr id); ("name", VStr name); ("condition", VStr condition);
        ("weight", num weight); ("action", VStr action); ("enabled", VBool true);
        ("description", VStr description)].

Definition default_rules : list value :=
  [ rule "fingerprint_completeness" "Fingerprint Completeness"
      "fingerprint.userAgent && fingerprint.canvasFingerprint && fingerprint.webglFingerprint"
      20 "allow" "Verifica se o fingerprint está completo";
    rule "behavioral_activity" "Behavioral Activity"
      "behavioral && behavioral.totalEvents > 5"
      15 "allow" "Verifica se há atividade comportamental suficiente";
    rule "session_duration" "Session Duration"
      "behavioral && behavioral.duration > 30000"
      10 "allow" "Verifica se a sessão tem duração mínima";
    rule "suspicious_user_agent" "Suspicious User Agent"
      ("fingerprint.userAgent.includes(" +++ quoted "bot"
         +++ ") || fingerprint.userAgent.includes(" +++ quoted "crawler" +++ ")")
      (-30) "deny" "Detecta user agents suspeitos";
    rule "missing_fingerprint" "Missing Fingerprint"
      "!fingerprint || !fingerprint.userAgent"
      (-50) "deny" "Detecta ausência de fingerprint";
    rule "facial_verification" "Facial Verification"
      "facial && facial.imageData && !facial.error"
      25 "allow" "Bonus por verificação facial bem-sucedida";
    rule "high_behavioral_frequency" "High Behavioral Frequency"
      "behavioral && behavioral.metrics.clickFrequency > 0.5"
      (-10) "review" "Detecta atividade comportamental anormalmente alta";
    rule "canvas_fingerprint_consistency" "Canvas Fingerprint Consistency"
      "fingerprint.canvasFingerprint && fingerprint.canvasFingerprint.length > 100"
      10 "allow" "Verifica consistência do canvas fingerprint" ].

(** [_loadDefaultRules()] *)
Definition _loadDefaultRules (this : t) : t :=
  {| rulesPath := rulesPath this;
     rules := VArr default_rules;
     thresholds := default_thresholds;
     lastLoaded := lastLoaded this |}.

(** [!rule.k] *)
Definition falsy_prop (rule : value) (k : string) : outcome bool :=
  v <- getp rule k ;; Normal (negb (truthy v)).

(** [a || b] on fallible boolean tests, [b] evaluated only when [a] is false. *)
Definition or_else (a : outcome bool) (b : outcome bool) : outcome bool :=
  x <- a ;; if x then Normal true else b.

(** [!rule.id || !rule.name || !rule.condition || !rule.weight || !rule.action] *)
Definition structure_invalid (rule : value) : outcome bool :=
  or_else (falsy_prop rule "id")
 (or_else (falsy_prop rule "name")
 (or_else (falsy_prop rule "condition")
 (or_else (falsy_prop rule "weight")
          (falsy_prop rule "action")))).

(** [['allow', 'review', 'deny'].includes(action)] *)
Definition action_listed (action : value) : bool :=
  existsb (fun a => strict_eq (VStr a) action) ["allow"; "review"; "deny"].

(** The body of the loop of [_validateRules()]. *)
Definition validate_rule (rule : value) : outcome unit :=
  bad <- structure_invalid rule ;;
  if bad then throw_error (InvalidRule rule) else
  action <- getp rule "action" ;;
  if negb (action_listed action) then throw_error (InvalidRuleAction action) else
  weight <- getp rule "weight" ;;
  if negb (typeof_number weight) then throw_error (InvalidRuleWeight weight) else
  Normal tt.

Fixpoint validate_each (rules : list value) : outcome unit :=
  match rules with
  | [] => Normal tt
  | rule :: rest => validate_rule rule ;;; validate_each rest
  end.

(** [_validateRules()] *)
Definition _validateRules (this : t) : outcome unit :=
  items <- iterate (rules this) ;; validate_each items.

(** What [fs.readFile] followed by [JSON.parse] hands to [loadRules]. *)
Inductive config_source : Type :=
| ReadFailure (e : exn)
| ParseFailure (e : exn)
| Parsed (config : value).

(** The [try] block of [loadRules()]: the state it leaves behind and
    whether it completed.  [now] is [new Date().toISOString()]. *)
Definition loadRules_try (src : config_source) (now : string) (this : t)
  : t * outcome unit :=
  match src with
  | ReadFailure e | ParseFailure e => (this, Throw e)
  | Parsed config =>
      match getp config "rules", getp config "thresholds" with
      | Normal config_rules, Normal config_thresholds =>
          let this1 :=
            {| rulesPath := rulesPath this;
               rules := js_or config_rules (VArr []);
               thresholds := js_or config_thresholds (thresholds this);
               lastLoaded := Some now |} in
          (this1, _validateRules this1)
      | Throw e, _ | _, Throw e => (this, Throw e)
      end
  end.

(** [loadRules()]: any exception of the [try] block is caught and answered
    with [_loadDefaultRules()]. *)
Definition loadRules (src : config_source) (now : string) (this : t) : t :=
  match loadRules_try src now this with
  | (this1, Normal _) => this1
  | (this1, Throw _) => _loadDefaultRules this1
  end.

(** [reloadRules()] *)
Definition reloadRules := loadRules.

(** *** Guarding dotted paths

    [condition.replace(/(\w+\.\w+)/g, fn)].  A match is a maximal run of
    word characters, a dot, and a maximal run of word characters; the
    search resumes after the match.  Where a run is not followed by a dot
    and a word character no match starts inside it either, so a single
    left-to-right scan finds exactly the matches of the regular
    expression. *)

(** [\w] *)
Definition is_word (c : ascii) : bool :=
  let n := nat_of_ascii c in
  (((48 <=? n) && (n <=? 57)) || ((65 <=? n) && (n <=? 90))
   || ((97 <=? n) && (n <=? 122)) || (n =? 95))%nat.

Definition snoc (s : string) (c : ascii) : string := s +++ String c EmptyString.

(** The replacement function: [parts = match.split('.')], the check
    [parts[0] && parts[0].parts[1]], and the guarded access. *)
Definition guard_replacement (w1 w2 : string) : string :=
  let matched := w1 +++ "." +++ w2 in
  let check := w1 in
  let check := check +++ " && " +++ check +++ "." +++ w2 in
  "(" +++ check +++ " ? " +++ matched +++ " : null)".

Inductive scan_state : Type :=
| Outside
| FirstWord (w1 : string)
| AfterDot (w1 : string)
| SecondWord (w1 w2 : string).

(** What is written out when the text ends in a given state. *)
Definition flush (st : scan_state) : string :=
  match st with
  | Outside => EmptyString
  | FirstWord w1 => w1
  | AfterDot w1 => w1 +++ "."
  | SecondWord w1 w2 => guard_replacement w1 w2
  end.

Fixpoint guard_scan (st : scan_state) (s : string) : string :=
  match s with
  | EmptyString => flush st
  | String c rest =>
      if is_word c then
        match st with
        | Outside => guard_scan (FirstWord (String c EmptyString)) rest
        | FirstWord w1 => guard_scan (FirstWord (snoc w1 c)) rest
        | AfterDot w1 => guard_scan (SecondWord w1 (String c EmptyString)) rest
        | SecondWord w1 w2 => guard_scan (SecondWord w1 (snoc w2 c)) rest
        end
      else
        match st with
        | FirstWord w1 =>
            if Ascii.eqb c "."%char then guard_scan (AfterDot w1) rest
            else w1 +++ String c (guard_scan Outside rest)
        | _ => flush st +++ String c (guard_scan Outside rest)
        end
  end.

Definition guard_paths (condition : string) : string :=
  guard_scan Outside condition.

(** *** Evaluation *)

(** A RuleResult.  A property the engine does not set reads [undefined];
    [error] is [None] when the result has no [error] property. *)
Record RuleResult : Type := mkResult {
  id : value;
  name : value;
  passed : bool;
  weight : value;
  score : value;
  action : value;
  condition : value;
  description : value;
  error : option message
}.

(** [_createSafeContext(data)] *)
Definition _createSafeContext (data : value) : outcome value :=
  fingerprint <- getp data "fingerprint" ;;
  behavioral <- getp data "behavioral" ;;
  facial <- getp data "facial" ;;
  sessionId <- getp data "sessionId" ;;
  timestamp <- getp data "timestamp" ;;
  Normal (VObj [("fingerprint", js_or fingerprint (VObj []));
                ("behavioral", js_or behavioral (VObj []));
                ("facial", js_or facial (VObj []));
                ("sessionId", sessionId);
                ("timestamp", timestamp)]).

Definition newline : string := String "010"%char EmptyString.

(** The function body handed to [new Function('context', ...)]: the
    template around the guarded condition. *)
Definition body_head : string :=
  newline
  +++ "        const { fingerprint, behavioral, facial, sessionId, timestamp } = context;"
  +++ newline
  +++ "        return ".

Definition body_tail : string := ";" +++ newline +++ "      ".

Definition function_body (safeCondition : string) : string :=
  body_head +++ safeCondition +++ body_tail.

Section Engine.

(** The host's [new Function('context', body)(context)]: compiling [body]
    and calling the function on [context] returns a value or throws (a
    SyntaxError from the constructor, anything from the call). *)
Variable call_Function : string -> value -> outcome value.

(** [_evaluateCondition(condition, context)].  A [condition] that is not a
    string has no callable [replace]: the TypeError is caught like every
    other exception. *)
Definition _evaluateCondition (condition : value) (context : value) : bool :=
  match condition with
  | VStr c =>
      let safeCondition := guard_paths c in
      match call_Function (function_body safeCondition) context with
      | Normal result => truthy result
      | Throw _ => false
      end
  | _ => false
  end.

(** [_evaluateRule(rule, data)] *)
Definition _evaluateRule (rule : value) (data : value) : outcome RuleResult :=
  let attempt :=
    context <- _createSafeContext data ;;
    rule_condition <- getp rule "condition" ;;
    let passed := _evaluateCondition rule_condition context in
    rule_weight <- getp rule "weight" ;;
    let score := if passed then rule_weight else num 0 in
    rule_id <- getp rule "id" ;;
    rule_name <- getp rule "name" ;;
    rule_action <- getp rule "action" ;;
    rule_description <- getp rule "description" ;;
    Normal {| id := rule_id; name := rule_name; passed := passed;
              weight := rule_weight; score := score; action := rule_action;
              condition := rule_condition; description := rule_description;
              error := None |} in
  match attempt with
  | Normal result => Normal result
  | Throw e =>
      rule_id <- getp rule "id" ;;
      throw_error (FailedToEvaluate rule_id (exn_message e))
  end.

(** The body of the loop of [evaluateRules(data)]: the results so far and
    one rule. *)
Definition evaluate_step (data : value) (results : list RuleResult) (rule : value)
  : outcome (list RuleResult) :=
  enabled <- getp rule "enabled" ;;
  if negb (truthy enabled) then Normal results else
  match _evaluateRule rule data with
  | Normal result => Normal (results ++ [result])
  | Throw e =>
      rule_id <- getp rule "id" ;;
      rule_name <- getp rule "name" ;;
      Normal (results ++
        [{| id := rule_id; name := rule_name; passed := false;
            weight := num 0; score := num 0; action := VUndefined;
            condition := VUndefined; description := VUndefined;
            error := Some (exn_message e) |}])
  end.

Fixpoint evaluate_loop (data : value) (results : list RuleResult) (rules : list value)
  : outcome (list RuleResult) :=
  match rules with
  | [] => Normal results
  | rule :: rest =>
      results' <- evaluate_step data results rule ;;
      evaluate_loop data results' rest
  end.

(** [evaluateRules(data)] *)
Definition evaluateRules (this : t) (data : value) : outcome (list RuleResult) :=
  items <- iterate (rules this) ;;
  evaluate_loop data [] items.

End Engine.

(** *** Temporary rules *)

(** [this.rules.find(r => r.id === rule.id)] on the elements of the array. *)
Fixpoint find_by_id (rule_id : value) (items : list value) : outcome (option value) :=
  match items with
  | [] => Normal None
  | r :: rest =>
      r_id <- getp r "id" ;;
      if strict_eq r_id rule_id then Normal (Some r) else find_by_id rule_id rest
  end.

(** The own properties [{...rule}] copies. *)
Definition spread (rule : value) : list (string * value) :=
  match rule with
  | VObj props => props
  | _ => []
  end.

(** [addTemporaryRule(rule)]: the engine after the call, or the exception
    (which leaves the engine as it was). *)
Definition addTemporaryRule (rule : value) (this : t) : outcome t :=
  bad <- structure_invalid rule ;;
  if bad then throw_error InvalidRuleStructure else
  match rules this with
  | VArr items =>
      rule_id <- getp rule "id" ;;
      found <- find_by_id rule_id items ;;
      match found with
      | Some r => throw_error (RuleExists rule_id)
      | None =>
          enabled <- getp rule "enabled" ;;
          let added :=
            VObj (set_prop "temporary" (VBool true)
                 (set_prop "enabled" (VBool (negb (strict_eq enabled (VBool false))))
                 (spread rule))) in
          Normal {| rulesPath := rulesPath this;
                    rules := VArr (items ++ [added]);
                    thresholds := thresholds this;
                    lastLoaded := lastLoaded this |}
      end
  | _ => Throw (Exn TypeError (NotAFunction "find"))
  end.

(** [getActiveRules()] on the elements of the array. *)
Definition getActiveRules (items : list value) : outcome (list value) :=
  fold_right (fun r acc =>
                enabled <- getp r "enabled" ;;
                rest <- acc ;;
                Normal (if truthy enabled then r :: rest else rest))
             (Normal []) items.

End RuleEngine.

(** ** The condition language

    [new Function] accepts every JavaScript function body.  [MiniJS]
    interprets the expressions the rule sets are written in: identifiers,
    number and string literals, [true], [false], [null], property reads,
    calls, [!], the comparisons, [&&], [||], [?:], the comma and
    parentheses.  [run] answers [None] for a body or an operation outside
    that fragment and never guesses: a [Some] answer is what a JavaScript
    engine computes (numbers idealised as rationals). *)

Module MiniJS.

Inductive token : Type :=
| TId (s : string)
| TNum (q : Q)
| TStr (s : string)
| TPunct (p : string).

Definition code (c : ascii) : nat := nat_of_ascii c.

Definition is_digit (c : ascii) : bool := ((48 <=? code c) && (code c <=? 57))%nat.

Definition is_ident_start (c : ascii) : bool :=
  (((65 <=? code c) && (code c <=? 90)) || ((97 <=? code c) && (code c <=? 122))
   || (code c =? 95) || (code c =? 36))%nat.

Definition is_ident_part (c : ascii) : bool := is_ident_start c || is_digit c.

Definition is_ascii (c : ascii) : bool := (code c <? 128)%nat.

(** The longest prefix of [s] whose characters satisfy [p], and the rest. *)
Fixpoint span (p : ascii -> bool) (s : string) : string * string :=
  match s with
  | EmptyString => (EmptyString, EmptyString)
  | String c rest =>
      if p c then let (w, r) := span p rest in (String c w, r)
      else (EmptyString, s)
  end.

Definition first_is (p : ascii -> bool) (s : string) : bool :=
  match s with
  | String c _ => p c
  | EmptyString => false
  end.

Fixpoint digits_value (s : string) (acc : Z) : Z :=
  match s with
  | EmptyString => acc
  | String c rest => digits_value rest (10 * acc + Z.of_nat (code c - 48))%Z
  end.

(** The number written [ds.fs] in decimal. *)
Definition decimal (ds fs : string) : Q :=
  Qred (Qmake (digits_value (ds +++ fs) 0)
              (Z.to_pos (10 ^ Z.of_nat (String.length fs)))).

Definition punctuators3 : list string := ["==="; "!=="].
Definition punctuators2 : list string := ["=="; "!="; "<="; ">="; "&&"; "||"].
Definition punctuators1 : list string := ["("; ")"; "."; ","; "?"; ":"; "!"; "<"; ">"].

(** The first [n] characters of [s], and [s] without them. *)
Fixpoint take (n : nat) (s : string) : string :=
  match n, s with
  | S n', String c rest => String c (take n' rest)
  | _, _ => EmptyString
  end.

Fixpoint drop (n : nat) (s : string) : string :=
  match n, s with
  | S n', String _ rest => drop n' rest
  | _, _ => s
  end.

Definition mem (x : string) (l : list string) : bool := existsb (String.eqb x) l.

(** A character after which a one-character punctuator would have been
    part of a longer token of JavaScript that the fragment leaves out
    ([?.], [??], [..], a number written [.5], the shifts, [<!--]). *)
Definition glued (p : string) (rest : string) : bool :=
  if p =? "?" then first_is (fun c => Ascii.eqb c "."%char || Ascii.eqb c "?"%char) rest
  else if p =? "." then first_is (fun c => Ascii.eqb c "."%char || is_digit c) rest
  else if p =? "<" then first_is (fun c => Ascii.eqb c "<"%char || Ascii.eqb c "!"%char) rest
  else if p =? ">" then first_is (fun c => Ascii.eqb c ">"%char) rest
  else false.

(** One token (or one blank) off the front of [s], the rest of the text
    being left to [rest_tokens]. *)
Definition lex_step (rest_tokens : string -> option (list token)) (s : string)
  : option (list token) :=
  match s with
  | EmptyString => Some []
  | String c rest =>
      if Ascii.eqb c " "%char || Ascii.eqb c "009"%char then rest_tokens rest
      else if is_ident_start c then
        let (w, r) := span is_ident_part s in
        if first_is (fun c => negb (is_ascii c)) r then None
        else option_map (cons (TId w)) (rest_tokens r)
      else if is_digit c then
        let (ds, r) := span is_digit s in
        if first_is (fun c => Ascii.eqb c "0"%char) ds && (1 <? String.length ds)%nat
        then None
        else
          let (fs, r') :=
            match r with
            | String "."%char r1 => span is_digit r1
            | _ => (EmptyString, r)
            end in
          if first_is (fun c => is_ident_part c || Ascii.eqb c "."%char
                                || negb (is_ascii c)) r'
          then None
          else option_map (cons (TNum (decimal ds fs))) (rest_tokens r')
      else if Ascii.eqb c "034"%char || Ascii.eqb c "'"%char then
        let (body, r) :=
          span (fun d => negb (Ascii.eqb d c || Ascii.eqb d "\"%char
                               || Ascii.eqb d "010"%char || Ascii.eqb d "013"%char
                               || negb (is_ascii d))) rest in
        match r with
        | String d r' =>
            if Ascii.eqb d c then option_map (cons (TStr body)) (rest_tokens r')
            else None
        | EmptyString => None
        end
      else if mem (take 3 s) punctuators3 then
        option_map (cons (TPunct (take 3 s))) (rest_tokens (drop 3 s))
      else if mem (take 2 s) punctuators2 then
        option_map (cons (TPunct (take 2 s))) (rest_tokens (drop 2 s))
      else if mem (take 1 s) punctuators1 && negb (glued (take 1 s) rest) then
        option_map (cons (TPunct (take 1 s))) (rest_tokens rest)
      else None
  end.

(** The tokens of [s]; [fuel] bounds the number of steps. *)
Fixpoint lex (fuel : nat) (s : string) : option (list token) :=
  match fuel with
  | O => None
  | S fuel' => lex_step (lex fuel') s
  end.

Definition tokens (s : string) : option (list token) := lex (S (String.length s)) s.

(** *** Syntax *)

Inductive binop : Type := Lt | Gt | Le | Ge | EqEq | NotEq | StrictEq | StrictNotEq.

Inductive expr : Type :=
| EId (x : string)
| ELit (v : value)
| EMember (e : expr) (k : string)
| ECall (f : expr) (args : list expr)
| ENot (e : expr)
| ECmp (op : binop) (a b : expr)
| EAnd (a b : expr)
| EOr (a b : expr)
| ECond (c a b : expr)
| EComma (a b : expr).

Inductive parsed (A : Type) : Type :=
| Parsed (a : A) (rest : list token)
| SyntaxErr
| Unmodelled.
Arguments Parsed {A} a rest.
Arguments SyntaxErr {A}.
Arguments Unmodelled {A}.

(** Words that are (or can be) keywords where an expression starts: an
    input that uses one outside a property name is left to the engine. *)
Definition keywords : list string :=
  ["break"; "case"; "catch"; "class"; "const"; "continue"; "debugger"; "default";
   "delete"; "do"; "else"; "enum"; "export"; "extends"; "finally"; "for";
   "function"; "if"; "import"; "in"; "instanceof"; "new"; "return"; "super";
   "switch"; "this"; "throw"; "try"; "typeof"; "var"; "void"; "while"; "with";
   "let"; "static"; "yield"; "await"; "async"; "of"; "get"; "set";
   "implements"; "interface"; "package"; "private"; "protected"; "public"].

Fixpoint uses_keyword (after_dot : bool) (toks : list token) : bool :=
  match toks with
  | [] => false
  | TId x :: rest => (negb after_dot && mem x keywords) || uses_keyword false rest
  | TPunct p :: rest => uses_keyword (p =? ".") rest
  | _ :: rest => uses_keyword false rest
  end.

(** The binary operators by level: 0 is [||], 1 is [&&], 2 the
    equalities, 3 the relational comparisons. *)
Definition binary_at (level : nat) (p : string) (a b : expr) : option expr :=
  match level with
  | 0%nat => if p =? "||" then Some (EOr a b) else None
  | 1%nat => if p =? "&&" then Some (EAnd a b) else None
  | 2%nat =>
      if p =? "==" then Some (ECmp EqEq a b)
      else if p =? "!=" then Some (ECmp NotEq a b)
      else if p =? "===" then Some (ECmp StrictEq a b)
      else if p =? "!==" then Some (ECmp StrictNotEq a b)
      else None
  | 3%nat =>
      if p =? "<" then Some (ECmp Lt a b)
      else if p =? ">" then Some (ECmp Gt a b)
      else if p =? "<=" then Some (ECmp Le a b)
      else if p =? ">=" then Some (ECmp Ge a b)
      else None
  | _ => None
  end.

Definition literal_or_id (x : string) : expr :=
  if x =? "true" then ELit (VBool true)
  else if x =? "false" then ELit (VBool false)
  else if x =? "null" then ELit VNull
  else EId x.

Definition then_parse {A B : Type} (r : parsed A) (k : A -> list token -> parsed B)
  : parsed B :=
  match r with
  | Parsed a rest => k a rest
  | SyntaxErr => SyntaxErr
  | Unmodelled => Unmodelled
  end.

(** Recursive descent over the token list; [fuel] bounds the depth of the
    descent and running out of it is reported as [Unmodelled]. *)
Fixpoint parse_expression (fuel : nat) (toks : list token) : parsed expr :=
  match fuel with
  | O => Unmodelled
  | S fuel' =>
      then_parse (parse_assign fuel' toks) (parse_comma_rest fuel')
  end
with parse_comma_rest (fuel : nat) (a : expr) (toks : list token) : parsed expr :=
  match fuel with
  | O => Unmodelled
  | S fuel' =>
      match toks with
      | TPunct "," :: rest =>
          then_parse (parse_assign fuel' rest)
            (fun b => parse_comma_rest fuel' (EComma a b))
      | _ => Parsed a toks
      end
  end
with parse_assign (fuel : nat) (toks : list token) : parsed expr :=
  match fuel with
  | O => Unmodelled
  | S fuel' =>
      then_parse (parse_binary fuel' 0 toks) (fun c rest =>
        match rest with
        | TPunct "?" :: rest1 =>
            then_parse (parse_assign fuel' rest1) (fun a rest2 =>
              match rest2 with
              | TPunct ":" :: rest3 =>
                  then_parse (parse_assign fuel' rest3) (fun b rest4 =>
                    Parsed (ECond c a b) rest4)
              | _ => SyntaxErr
              end)
        | _ => Parsed c rest
        end)
  end
with parse_binary (fuel : nat) (level : nat) (toks : list token) : parsed expr :=
  match fuel with
  | O => Unmodelled
  | S fuel' =>
      if (4 <=? level)%nat then parse_unary fuel' toks
      else then_parse (parse_binary fuel' (S level) toks) (parse_binary_rest fuel' level)
  end
with parse_binary_rest (fuel : nat) (level : nat) (a : expr) (toks : list token)
  : parsed expr :=
  match fuel with
  | O => Unmodelled
  | S fuel' =>
      match toks with
      | TPunct p :: rest =>
          match binary_at level p a a with
          | Some _ =>
              then_parse (parse_binary fuel' (S level) rest) (fun b rest' =>
                match binary_at level p a b with
                | Some e => parse_binary_rest fuel' level e rest'
                | None => SyntaxErr
                end)
          | None => Parsed a toks
          end
      | _ => Parsed a toks
      end
  end
with parse_unary (fuel : nat) (toks : list token) : parsed expr :=
  match fuel with
  | O => Unmodelled
  | S fuel' =>
      match toks with
      | TPunct "!" :: rest =>
          then_parse (parse_unary fuel' rest) (fun e rest' => Parsed (ENot e) rest')
      | TId x :: rest => parse_postfix fuel' (literal_or_id x) rest
      | TNum q :: rest => parse_postfix fuel' (ELit (VNum q)) rest
      | TStr s :: rest => parse_postfix fuel' (ELit (VStr s)) rest
      | TPunct "(" :: rest =>
          then_parse (parse_expression fuel' rest) (fun e rest' =>
            match rest' with
            | TPunct ")" :: rest'' => parse_postfix fuel' e rest''
            | _ => SyntaxErr
            end)
      | _ => SyntaxErr
      end
  end
with parse_postfix (fuel : nat) (e : expr) (toks : list token) : parsed expr :=
  match fuel with
  | O => Unmodelled
  | S fuel' =>
      match toks with
      | TPunct "." :: TId k :: rest => parse_postfix fuel' (EMember e k) rest
      | TPunct "." :: _ => SyntaxErr
      | TPunct "(" :: rest =>
          then_parse (parse_args fuel' [] rest) (fun args rest' =>
            parse_postfix fuel' (ECall e args) rest')
      | _ => Parsed e toks
      end
  end
with parse_args (fuel : nat) (acc : list expr) (toks : list token)
  : parsed (list expr) :=
  match fuel with
  | O => Unmodelled
  | S fuel' =>
      match toks with
      | TPunct ")" :: rest => Parsed (rev acc) rest
      | _ =>
          then_parse (parse_assign fuel' toks) (fun a rest =>
            match rest with
            | TPunct "," :: rest' => parse_args fuel' (a :: acc) rest'
            | TPunct ")" :: rest' => Parsed (rev (a :: acc)) rest'
            | _ => SyntaxErr
            end)
      end
  end.

(** The expression of [return <source>;].  No token at all is the bare
    [return;], which yields [undefined]. *)
Inductive parse_result : Type :=
| Expression (e : expr)
| BareReturn
| SyntaxFailure
| OutsideFragment.

Definition parse (source : string) : parse_result :=
  match tokens source with
  | None => OutsideFragment
  | Some [] => BareReturn
  | Some toks =>
      if uses_keyword false toks then OutsideFragment
      else
        match parse_expression (20 + 12 * List.length toks) toks with
        | Parsed e [] => Expression e
        | Parsed _ (_ :: _) => SyntaxFailure
        | SyntaxErr => SyntaxFailure
        | Unmodelled => OutsideFragment
        end
  end.

(** *** Evaluation *)

(** [None] is an operation the model leaves to the engine. *)
Definition result : Type := option (outcome value).

Definition ret (v : value) : result := Some (Normal v).
Definition raise (k : error_kind) (m : message) : result := Some (Throw (Exn k m)).

Definition and_then {A B : Type} (r : option (outcome A)) (k : A -> option (outcome B))
  : option (outcome B) :=
  match r with
  | Some (Normal a) => k a
  | Some (Throw e) => Some (Throw e)
  | None => None
  end.

(** Names that are, or may be, bound in the global scope of the host
    (Node.js, or a test runner around it); beside them, every name that
    does not start with a lower-case letter is left to the engine. *)
Definition global_names : list string :=
  ["globalThis"; "global"; "process"; "console"; "require"; "module"; "exports";
   "arguments"; "anonymous"; "eval"; "isFinite"; "isNaN"; "parseFloat"; "parseInt";
   "decodeURI"; "decodeURIComponent"; "encodeURI"; "encodeURIComponent"; "escape";
   "unescape"; "setTimeout"; "setInterval"; "setImmediate"; "clearTimeout";
   "clearInterval"; "clearImmediate"; "queueMicrotask"; "structuredClone"; "atob";
   "btoa"; "fetch"; "performance"; "crypto"; "navigator"; "window"; "self";
   "document"; "jest"; "expect"; "describe"; "test"; "it"].

Definition may_be_global (x : string) : bool :=
  mem x global_names
  || first_is (fun c => negb (((97 <=? code c) && (code c <=? 122))%nat)) x.

(** Names defined on [Object.prototype]. *)
Definition object_prototype_names : list string :=
  ["constructor"; "toString"; "toLocaleString"; "valueOf"; "hasOwnProperty";
   "isPrototypeOf"; "propertyIsEnumerable"; "__proto__"; "__defineGetter__";
   "__defineSetter__"; "__lookupGetter__"; "__lookupSetter__"].

Fixpoint all_ascii (s : string) : bool :=
  match s with
  | EmptyString => true
  | String c rest => is_ascii c && all_ascii rest
  end.

(** [v.k] as a value.  A read that would yield a built-in method is not
    modelled. *)
Definition member (v : value) (k : string) : result :=
  match v with
  | VUndefined | VNull => raise TypeError (CannotRead v k)
  | VObj props =>
      match lookup k props with
      | Some x => ret x
      | None => if mem k object_prototype_names then None else ret VUndefined
      end
  | VStr s =>
      if (k =? "length") && all_ascii s then ret (num (Z.of_nat (String.length s)))
      else None
  | VArr items =>
      if k =? "length" then ret (num (Z.of_nat (List.length items))) else None
  | _ => None
  end.

(** [s.includes(t)] *)
Fixpoint includes (s t : string) : bool :=
  String.prefix t s
  || match s with
     | EmptyString => false
     | String _ rest => includes rest t
     end.

Inductive prim : Type :=
| PUndef | PNull | PBool (b : bool) | PNum (q : Q) | PStr (s : string).

(** ToPrimitive: a plain object without its own [toString] and [valueOf]
    converts to the string of [Object.prototype.toString], the empty
    array to the empty string. *)
Definition to_primitive (v : value) : option prim :=
  match v with
  | VUndefined => Some PUndef
  | VNull => Some PNull
  | VBool b => Some (PBool b)
  | VNum q => Some (PNum q)
  | VStr s => Some (PStr s)
  | VArr [] => Some (PStr EmptyString)
  | VArr _ => None
  | VObj props =>
      match lookup "toString" props, lookup "valueOf" props with
      | None, None => Some (PStr "[object Object]")
      | _, _ => None
      end
  end.

Inductive number : Type := NaN | Fin (q : Q).

Definition is_space (c : ascii) : bool :=
  ((code c =? 32) || ((9 <=? code c) && (code c <=? 13)))%nat.

Fixpoint trim_left (s : string) : string :=
  match s with
  | String c rest => if is_space c then trim_left rest else s
  | EmptyString => s
  end.

Fixpoint reverse (s acc : string) : string :=
  match s with
  | EmptyString => acc
  | String c rest => reverse rest (String c acc)
  end.

Definition trim (s : string) : string :=
  reverse (trim_left (reverse (trim_left s) EmptyString)) EmptyString.

(** StringToNumber on decimal literals without exponent; a text that
    could be another numeric form is not modelled. *)
Definition string_to_number (s : string) : option number :=
  if negb (all_ascii s) then None else
  let t := trim s in
  match t with
  | EmptyString => Some (Fin 0)
  | String c rest =>
      let negative := Ascii.eqb c "-"%char in
      let body := if negative || Ascii.eqb c "+"%char then rest else t in
      if first_is (fun d => is_digit d || Ascii.eqb d "."%char || Ascii.eqb d "I"%char) body
      then
        let (ds, r) := span is_digit body in
        let (fs, r') :=
          match r with
          | String "."%char r1 => span is_digit r1
          | _ => (EmptyString, r)
          end in
        if (r' =? EmptyString) && negb ((ds =? EmptyString) && (fs =? EmptyString))
        then Some (Fin (if negative then Qred (- decimal ds fs) else decimal ds fs))
        else None
      else Some NaN
  end.

Definition to_number (p : prim) : option number :=
  match p with
  | PUndef => Some NaN
  | PNull => Some (Fin 0)
  | PBool b => Some (Fin (if b then 1 else 0))
  | PNum q => Some (Fin q)
  | PStr s => string_to_number s
  end.

(** The abstract relational comparison [a < b] on primitives: [Some None]
    is the answer [undefined] (an operand is NaN). *)
Definition less (a b : prim) : option (option bool) :=
  match a, b with
  | PStr x, PStr y =>
      if all_ascii x && all_ascii y then Some (Some (String.ltb x y)) else None
  | _, _ =>
      match to_number a, to_number b with
      | Some (Fin x), Some (Fin y) => Some (Some (Qlt_bool x y))
      | Some _, Some _ => Some None
      | _, _ => None
      end
  end.

Definition is_object (v : value) : bool :=
  match v with VArr _ | VObj _ => true | _ => false end.

(** [a == b] *)
Definition loose_eq (a b : value) : option bool :=
  if is_nullish a || is_nullish b then Some (is_nullish a && is_nullish b)
  else if is_object a && is_object b then None
  else
    match to_primitive a, to_primitive b with
    | Some (PStr x), Some (PStr y) => Some (x =? y)
    | Some pa, Some pb =>
        match to_number pa, to_number pb with
        | Some (Fin x), Some (Fin y) => Some (Qeq_bool x y)
        | Some _, Some _ => Some false
        | _, _ => None
        end
    | _, _ => None
    end.

(** [a === b] *)
Definition strict_equal (a b : value) : option bool :=
  if is_object a && is_object b then None else Some (strict_eq a b).

Definition compare (op : binop) (a b : value) : option bool :=
  match op with
  | EqEq => loose_eq a b
  | NotEq => option_map negb (loose_eq a b)
  | StrictEq => strict_equal a b
  | StrictNotEq => option_map negb (strict_equal a b)
  | _ =>
      match to_primitive a, to_primitive b with
      | Some pa, Some pb =>
          match op with
          | Lt => option_map (fun r => match r with Some x => x | None => false end)
                             (less pa pb)
          | Gt => option_map (fun r => match r with Some x => x | None => false end)
                             (less pb pa)
          | Le => option_map (fun r => match r with Some x => negb x | None => false end)
                             (less pb pa)
          | _ => option_map (fun r => match r with Some x => negb x | None => false end)
                            (less pa pb)
          end
      | _, _ => None
      end
  end.

Definition env : Type := list (string * value).

Fixpoint eval (rho : env) (e : expr) {struct e} : result :=
  let eval_args :=
    fix go (l : list expr) : option (outcome (list value)) :=
      match l with
      | [] => Some (Normal [])
      | a :: rest =>
          and_then (eval rho a) (fun v =>
          and_then (go rest) (fun vs => Some (Normal (v :: vs))))
      end in
  match e with
  | EId x =>
      match lookup x rho with
      | Some v => ret v
      | None =>
          if x =? "undefined" then ret VUndefined
          else if may_be_global x then None
          else raise ReferenceError (NotDefined x)
      end
  | ELit v => ret v
  | EMember e1 k => and_then (eval rho e1) (fun v => member v k)
  | ECall f args =>
      match f with
      | EMember r k =>
          and_then (eval rho r) (fun receiver =>
            match receiver with
            | VUndefined | VNull => raise TypeError (CannotRead receiver k)
            | VStr s =>
                if k =? "includes" then
                  and_then (eval_args args) (fun vs =>
                    match vs with
                    | [VStr t] => ret (VBool (includes s t))
                    | _ => None
                    end)
                else None
            | _ =>
                and_then (member receiver k) (fun _ =>
                and_then (eval_args args) (fun _ =>
                raise TypeError (NotAFunction k)))
            end)
      | _ =>
          and_then (eval rho f) (fun _ =>
          and_then (eval_args args) (fun _ =>
          raise TypeError (NotAFunction EmptyString)))
      end
  | ENot e1 => and_then (eval rho e1) (fun v => ret (VBool (negb (truthy v))))
  | ECmp op a b =>
      and_then (eval rho a) (fun va =>
      and_then (eval rho b) (fun vb =>
        match compare op va vb with
        | Some r => ret (VBool r)
        | None => None
        end))
  | EAnd a b => and_then (eval rho a) (fun va => if truthy va then eval rho b else ret va)
  | EOr a b => and_then (eval rho a) (fun va => if truthy va then ret va else eval rho b)
  | ECond c a b => and_then (eval rho c) (fun vc => if truthy vc then eval rho a else eval rho b)
  | EComma a b => and_then (eval rho a) (fun _ => eval rho b)
  end.

(** *** The Function constructor on the bodies the rule engine builds *)

Fixpoint strip_prefix (p s : string) : option string :=
  match p, s with
  | EmptyString, _ => Some s
  | String a p', String b s' => if Ascii.eqb a b then strip_prefix p' s' else None
  | String _ _, EmptyString => None
  end.

(** [s] without its ending [suffix]. *)
Fixpoint strip_suffix (suffix s : string) : option string :=
  if s =? suffix then Some EmptyString
  else
    match s with
    | EmptyString => None
    | String c rest => option_map (String c) (strip_suffix suffix rest)
    end.

(** The text between [return ] and the closing [;] of a body built by
    [RuleEngine.function_body]. *)
Definition returned_source (body : string) : option string :=
  match strip_prefix RuleEngine.body_head body with
  | Some rest => strip_suffix RuleEngine.body_tail rest
  | None => None
  end.

(** [const { fingerprint, behavioral, facial, sessionId, timestamp } = context] *)
Definition destructure (context : value) : outcome env :=
  fingerprint <- getp context "fingerprint" ;;
  behavioral <- getp context "behavioral" ;;
  facial <- getp context "facial" ;;
  sessionId <- getp context "sessionId" ;;
  timestamp <- getp context "timestamp" ;;
  Normal [("context", context); ("fingerprint", fingerprint);
          ("behavioral", behavioral); ("facial", facial);
          ("sessionId", sessionId); ("timestamp", timestamp)].

(** [new Function('context', body)(context)] *)
Definition run (body : string) (context : value) : result :=
  match returned_source body with
  | None => None
  | Some source =>
      match parse source with
      | OutsideFragment => None
      | SyntaxFailure => raise SyntaxError (Msg "Unexpected token")
      | BareReturn =>
          match destructure context with
          | Normal _ => ret VUndefined
          | Throw e => Some (Throw e)
          end
      | Expression e =>
          match destructure context with
          | Normal rho => eval rho e
          | Throw e => Some (Throw e)
          end
      end
  end.

(** [run] as an engine for [RuleEngine]; the properties stated with it
    only use it where [run] answers. *)
Definition engine (body : string) (context : value) : outcome value :=
  match run body context with
  | Some o => o
  | None => Throw (Exn PlainError (Msg "outside the modelled fragment"))
  end.

End MiniJS.

(** ** Shared constants (shared/constants/index.js) *)

Module Constants.

Module DECISION_TYPES.
Definition ALLOW : string := "allow".
Definition REVIEW : string := "review".
Definition DENY : string := "deny".
End DECISION_TYPES.

(** An object whose properties hold numbers. *)
Definition number_object : Type := list (string * Q).

Definition DEFAULT_THRESHOLDS : number_object :=
  [("ALLOW", 80); ("REVIEW", 50); ("DENY", 0)].

End Constants.

(** ** Verification data

    The data the scorers read, with the types of shared/types/index.js:
    a section or a field that is absent is [None]. *)

Module Metrics.
Record t : Type := mk {
  clickFrequency : option Q;
  scrollFrequency : option Q;
  keystrokeFrequency : option Q;
  mouseMovementDistance : option Q
}.
End Metrics.

Module Behavioral.
Record t : Type := mk {
  duration : option Q;
  totalEvents : option Q;
  metrics : option Metrics.t;
  startTime : option Q
}.
End Behavioral.

Module Fingerprint.
Record t : Type := mk {
  userAgent : option string;
  language : option string;
  platform : option string;
  screenResolution : option string;
  timezone : option string;
  canvasFingerprint : option string;
  webglFingerprint : option string;
  audioFingerprint : option string;
  fonts : option (list string);
  timestamp : option Q
}.
End Fingerprint.

Module Facial.
Record t : Type := mk {
  imageData : option string;
  error : option string
}.
End Facial.

Module Data.
Record t : Type := mk {
  fingerprint : option Fingerprint.t;
  behavioral : option Behavioral.t;
  facial : option Facial.t;
  sessionId : string;
  timestamp : Q
}.

(** The same data as the JavaScript object the rule engine is given. *)
Definition field {A : Type} (k : string) (f : A -> value) (x : option A)
  : list (string * value) :=
  match x with
  | Some a => [(k, f a)]
  | None => []
  end.

Definition metrics_json (m : Metrics.t) : value :=
  VObj (field "clickFrequency" VNum (Metrics.clickFrequency m)
        ++ field "scrollFrequency" VNum (Metrics.scrollFrequency m)
        ++ field "keystrokeFrequency" VNum (Metrics.keystrokeFrequency m)
        ++ field "mouseMovementDistance" VNum (Metrics.mouseMovementDistance m)).

Definition behavioral_json (b : Behavioral.t) : value :=
  VObj (field "duration" VNum (Behavioral.duration b)
        ++ field "totalEvents" VNum (Behavioral.totalEvents b)
        ++ field "metrics" metrics_json (Behavioral.metrics b)
        ++ field "startTime" VNum (Behavioral.startTime b)).

Definition fingerprint_json (f : Fingerprint.t) : value :=
  VObj (field "userAgent" VStr (Fingerprint.userAgent f)
        ++ field "language" VStr (Fingerprint.language f)
        ++ field "platform" VStr (Fingerprint.platform f)
        ++ field "screenResolution" VStr (Fingerprint.screenResolution f)
        ++ field "timezone" VStr (Fingerprint.timezone f)
        ++ field "canvasFingerprint" VStr (Fingerprint.canvasFingerprint f)
        ++ field "webglFingerprint" VStr (Fingerprint.webglFingerprint f)
        ++ field "audioFingerprint" VStr (Fingerprint.audioFingerprint f)
        ++ field "fonts" (fun l => VArr (map VStr l)) (Fingerprint.fonts f)
        ++ field "timestamp" VNum (Fingerprint.timestamp f)).

Definition facial_json (f : Facial.t) : value :=
  VObj (field "imageData" VStr (Facial.imageData f)
        ++ field "error" VStr (Facial.error f)).

Definition to_json (data : t) : value :=
  VObj (field "fingerprint" fingerprint_json (fingerprint data)
        ++ field "behavioral" behavioral_json (behavioral data)
        ++ field "facial" facial_json (facial data)
        ++ [("sessionId", VStr (sessionId data)); ("timestamp", VNum (timestamp data))]).

End Data.

(** ** The scoring service (backend/services/scoring.js) *)

Module ScoringService.

Import Constants.

Record t : Type := mk {
  ruleEngine : RuleEngine.t;
  thresholds : number_object
}.

(** [constructor(ruleEngine)] *)
Definition constructor (ruleEngine : RuleEngine.t) : t :=
  {| ruleEngine := ruleEngine; thresholds := DEFAULT_THRESHOLDS |}.

(** [Math.max(0, Math.min(100, x))] *)
Definition clamp (x : Q) : Q := Qmax 0 (Qmin 100 x).

(** [x || 0] on an optional number *)
Definition or_zero (x : option Q) : Q :=
  match x with
  | Some q => q
  | None => 0
  end.

(** Truthiness of an optional string: present and not empty. *)
Definition present (x : option string) : bool :=
  match x with
  | Some s => negb (s =? EmptyString)
  | None => false
  end.

(** Truthiness of an optional number: present and not zero. *)
Definition nonzero (x : option Q) : bool :=
  match x with
  | Some q => negb (Qeq_bool q 0)
  | None => false
  end.

(** [x && x !== other] on an optional string *)
Definition present_and_not (x : option string) (other : string) : bool :=
  match x with
  | Some s => negb (s =? EmptyString) && negb (s =? other)
  | None => false
  end.

(** [if (result.error)] *)
Definition has_error (result : RuleEngine.RuleResult) : bool :=
  match RuleEngine.error result with
  | Some m => message_truthy m
  | None => false
  end.

(** The loop of [_calculateRuleScore]: [totalScore] and [totalWeight] after
    the results.  [None] when a score or a weight that is added is not a
    number: the sums of the source then leave the finite numbers. *)
Fixpoint rule_totals (ruleResults : list RuleEngine.RuleResult) (totalScore totalWeight : Q)
  : option (Q * Q) :=
  match ruleResults with
  | [] => Some (totalScore, totalWeight)
  | result :: rest =>
      if has_error result then rule_totals rest totalScore totalWeight
      else
        match RuleEngine.score result, RuleEngine.weight result with
        | VNum s, VNum w => rule_totals rest (totalScore + s) (totalWeight + Qabs w)
        | _, _ => None
        end
  end.

(** [_calculateRuleScore(ruleResults)] *)
Definition _calculateRuleScore (ruleResults : list RuleEngine.RuleResult) : option Q :=
  match ruleResults with
  | [] => Some 50
  | _ =>
      match rule_totals ruleResults 0 0 with
      | Some (totalScore, totalWeight) =>
          if Qeq_bool totalWeight 0 then Some 50
          else
            let normalizedScore := ((totalScore / totalWeight) + 1) * 50 in
            Some (clamp normalizedScore)
      | None => None
      end
  end.

(** [_calculateBehavioralScore(behavioral)] *)
Definition _calculateBehavioralScore (behavioral : option Behavioral.t) : Q :=
  match behavioral with
  | None => 30
  | Some behavioral =>
      let score := 50 in
      let duration := or_zero (Behavioral.duration behavioral) in
      let score :=
        if Qlt_bool 60000 duration then score + 10
        else if Qlt_bool duration 10000 then score - 20
        else score in
      let eventCount := or_zero (Behavioral.totalEvents behavioral) in
      let score :=
        if Qlt_bool 20 eventCount then score + 10
        else if Qlt_bool eventCount 5 then score - 15
        else score in
      let metric (f : Metrics.t -> option Q) : Q :=
        match Behavioral.metrics behavioral with
        | Some metrics => or_zero (f metrics)
        | None => 0
        end in
      let clickFreq := metric Metrics.clickFrequency in
      let score :=
        if Qlt_bool 0.1 clickFreq && Qlt_bool clickFreq 2.0 then score + 5
        else if Qlt_bool 5.0 clickFreq then score - 10
        else score in
      let scrollFreq := metric Metrics.scrollFrequency in
      let score :=
        if Qlt_bool 0.05 scrollFreq && Qlt_bool scrollFreq 1.0 then score + 5
        else if Qlt_bool 3.0 scrollFreq then score - 10
        else score in
      let keystrokeFreq := metric Metrics.keystrokeFrequency in
      let score :=
        if Qlt_bool 0.1 keystrokeFreq && Qlt_bool keystrokeFreq 3.0 then score + 5
        else if Qlt_bool 10.0 keystrokeFreq then score - 15
        else score in
      let mouseDistance := metric Metrics.mouseMovementDistance in
      let score :=
        if Qlt_bool 100 mouseDistance then score + 5
        else if Qlt_bool mouseDistance 10 then score - 10
        else score in
      clamp score
  end.

Definition requiredFields : list (Fingerprint.t -> option string) :=
  [Fingerprint.userAgent; Fingerprint.language; Fingerprint.platform;
   Fingerprint.screenResolution; Fingerprint.timezone; Fingerprint.canvasFingerprint;
   Fingerprint.webglFingerprint; Fingerprint.audioFingerprint].

Definition suspiciousPatterns : list string := ["bot"; "crawler"; "spider"; "scraper"].

(** [toLowerCase()] on ASCII letters. *)
Definition lower (c : ascii) : ascii :=
  let n := nat_of_ascii c in
  if ((65 <=? n) && (n <=? 90))%nat then ascii_of_nat (n + 32) else c.

Fixpoint toLowerCase (s : string) : string :=
  match s with
  | EmptyString => EmptyString
  | String c rest => String (lower c) (toLowerCase rest)
  end.

(** [_calculateFingerprintScore(fingerprint)] *)
Definition _calculateFingerprintScore (fingerprint : option Fingerprint.t) : Q :=
  match fingerprint with
  | None => 0
  | Some fingerprint =>
      let score := 50 in
      let completeness :=
        List.length (filter (fun field => present_and_not (field fingerprint) "unknown")
                            requiredFields) in
      let score :=
        score + (inject_Z (Z.of_nat completeness)
                 / inject_Z (Z.of_nat (List.length requiredFields))) * 30 in
      let score :=
        match Fingerprint.canvasFingerprint fingerprint with
        | Some canvas =>
            if negb (canvas =? EmptyString) && (100 <? String.length canvas)%nat
            then score + 5 else score
        | None => score
        end in
      let score :=
        if present_and_not (Fingerprint.webglFingerprint fingerprint) "webgl_not_supported"
        then score + 5 else score in
      let score :=
        if present_and_not (Fingerprint.audioFingerprint fingerprint) "audio_error"
        then score + 5 else score in
      let score :=
        match Fingerprint.fonts fingerprint with
        | Some fonts => if (5 <? List.length fonts)%nat then score + 5 else score
        | None => score
        end in
      let score :=
        match Fingerprint.userAgent fingerprint with
        | Some userAgent =>
            if negb (userAgent =? EmptyString)
               && existsb (fun pattern => MiniJS.includes (toLowerCase userAgent) pattern)
                          suspiciousPatterns
            then score - 30 else score
        | None => score
        end in
      clamp score
  end.

(** [_calculateFacialScore(facial)] *)
Definition _calculateFacialScore (facial : option Facial.t) : Q :=
  match facial with
  | None => 50
  | Some facial =>
      if present (Facial.error facial) then 40
      else if present (Facial.imageData facial) then 80
      else 50
  end.

(** [_calculateDataQualityScore(data)]; [now] is the reading of
    [Date.now()]. *)
Definition _calculateDataQualityScore (now : Q) (data : Data.t) : Q :=
  let score := 50 in
  let dataAge := now - Data.timestamp data in
  let score :=
    if Qlt_bool dataAge 60000 then score + 10
    else if Qlt_bool 300000 dataAge then score - 20
    else score in
  let score :=
    match Data.fingerprint data with Some _ => score + 10 | None => score end in
  let score :=
    match Data.behavioral data with Some _ => score + 10 | None => score end in
  let score :=
    match Data.facial data with
    | Some facial => if negb (present (Facial.error facial)) then score + 10 else score
    | None => score
    end in
  let score :=
    match Data.fingerprint data, Data.behavioral data with
    | Some fingerprint, Some behavioral =>
        if nonzero (Fingerprint.timestamp fingerprint)
           && nonzero (Behavioral.startTime behavioral)
        then
          let timeDiff := Qabs (or_zero (Fingerprint.timestamp fingerprint)
                                - or_zero (Behavioral.startTime behavioral)) in
          if Qlt_bool timeDiff 300000 then score + 5 else score
        else score
    | _, _ => score
    end in
  clamp score.

Record scores : Type := mkScores {
  rule : Q;
  behavioral : Q;
  fingerprint : Q;
  facial : Q;
  dataQuality : Q
}.

Definition weights : number_object :=
  [("rule", 0.4); ("behavioral", 0.25); ("fingerprint", 0.2); ("facial", 0.1);
   ("dataQuality", 0.05)].

Fixpoint weight_of (type : string) (ws : number_object) : Q :=
  match ws with
  | [] => 0
  | (k, w) :: rest => if k =? type then w else weight_of type rest
  end.

(** [Object.entries(scores)] *)
Definition entries (s : scores) : list (string * Q) :=
  [("rule", rule s); ("behavioral", behavioral s); ("fingerprint", fingerprint s);
   ("facial", facial s); ("dataQuality", dataQuality s)].

(** [_combineScores(scores)]: every sub-score is a number, so no entry is
    skipped. *)
Definition _combineScores (s : scores) : Q :=
  let '(weightedScore, totalWeight) :=
    fold_left (fun '(weightedScore, totalWeight) '(type, score) =>
                 (weightedScore + score * weight_of type weights,
                  totalWeight + weight_of type weights))
              (entries s) (0, 0) in
  if Qlt_bool 0 totalWeight then weightedScore / totalWeight else 50.

(** [_generateReasons(scores)] *)
Definition _generateReasons (s : scores) (finalScore : Q) : list string :=
  [ if Qle_bool 80 finalScore
    then "High confidence score based on comprehensive data analysis"
    else if Qle_bool 60 finalScore
    then "Moderate confidence score with some risk factors"
    else if Qle_bool 40 finalScore
    then "Low confidence score with multiple risk factors"
    else "Very low confidence score with significant risk factors" ]
  ++ (if Qlt_bool (rule s) 40 then ["Multiple security rules failed"] else [])
  ++ (if Qlt_bool (behavioral s) 40
      then ["Insufficient or suspicious behavioral data"] else [])
  ++ (if Qlt_bool (fingerprint s) 40
      then ["Incomplete or suspicious device fingerprint"] else [])
  ++ (if Qle_bool 80 (facial s)
      then ["Facial verification completed successfully"] else [])
  ++ (if Qlt_bool (dataQuality s) 40
      then ["Poor data quality or stale information"] else []).

Record ScoreResult : Type := mkScoreResult {
  score : Q;
  reasons : list string;
  breakdown : scores
}.

(** [calculateScore(data, ruleResults)], run when [Date.now()] reads
    [now].  [None] when the rule score is: see [rule_totals]. *)
Definition calculateScore (now : Q) (data : Data.t)
           (ruleResults : list RuleEngine.RuleResult) : option ScoreResult :=
  match _calculateRuleScore ruleResults with
  | None => None
  | Some ruleScore =>
      let behavioralScore := _calculateBehavioralScore (Data.behavioral data) in
      let fingerprintScore := _calculateFingerprintScore (Data.fingerprint data) in
      let facialScore := _calculateFacialScore (Data.facial data) in
      let dataQualityScore := _calculateDataQualityScore now data in
      let all :=
        {| rule := ruleScore; behavioral := behavioralScore;
           fingerprint := fingerprintScore; facial := facialScore;
           dataQuality := dataQualityScore |} in
      let finalScore := _combineScores all in
      let reasons := _generateReasons all finalScore in
      Some {| score := clamp finalScore; reasons := reasons; breakdown := all |}
  end.

(** [score >= threshold], where a missing property reads [undefined] and
    the comparison with it is false. *)
Definition at_least (score : Q) (threshold : option Q) : bool :=
  match threshold with
  | Some x => Qle_bool x score
  | None => false
  end.

Fixpoint prop (k : string) (o : number_object) : option Q :=
  match o with
  | [] => None
  | (k', x) :: rest => if k' =? k then Some x else prop k rest
  end.

(** [getDecision(score)] *)
Definition getDecision (this : t) (score : Q) : string :=
  if at_least score (prop "allow" (thresholds this)) then DECISION_TYPES.ALLOW
  else if at_least score (prop "review" (thresholds this)) then DECISION_TYPES.REVIEW
  else DECISION_TYPES.DENY.

Fixpoint assign (k : string) (x : Q) (o : number_object) : number_object :=
  match o with
  | [] => [(k, x)]
  | (k', x') :: rest => if k' =? k then (k, x) :: rest else (k', x') :: assign k x rest
  end.

(** [{ ...a, ...b }] *)
Definition merge (a b : number_object) : number_object :=
  fold_left (fun acc '(k, x) => assign k x acc) b a.

(** [updateThresholds(newThresholds)] *)
Definition updateThresholds (newThresholds : number_object) (this : t) : t :=
  {| ruleEngine := ruleEngine this;
     thresholds := merge (thresholds this) newThresholds |}.

(** [getThresholds()] *)
Definition getThresholds (this : t) : number_object := thresholds this.

End ScoringService.

(** ** The verification route (backend/routes/identity.js)

    The handler evaluates the rules on the request data and scores the
    same data with the results.  [now] is the reading of [Date.now()]
    during the scoring. *)

Module Identity.


End Identity.

(** ** Words of the specification *)

Module Spec.

Import RuleEngine.

(** [rule.k], [undefined] where the rule has no such property. *)
Definition field_of (rule : value) (k : string) : value :=
  match getp rule k with
  | Normal v => v
  | Throw _ => VUndefined
  end.

Definition absent (v : value) : bool :=
  match v with
  | VUndefined => true
  | _ => false
  end.

(** An invalid rule: [id], [name] or [condition] missing, an action
    outside the three-value enumeration, or a weight that is not a
    number. *)
Definition invalid_rule (rule : value) : bool :=
  absent (field_of rule "id") || absent (field_of rule "name")
  || absent (field_of rule "condition")
  || negb (action_listed (field_of rule "action"))
  || negb (typeof_number (field_of rule "weight")).

(** Thresholds that break [allow >= review >= deny]. *)
Definition violates_ordering (thresholds : value) : bool :=
  match field_of thresholds "allow", field_of thresholds "review",
        field_of thresholds "deny" with
  | VNum allow, VNum review, VNum deny =>
      negb (Qle_bool review allow && Qle_bool deny review)
  | _, _, _ => false
  end.

(** A rule is enabled when [rule.enabled] is truthy. *)
Definition enabled (rule : value) : bool := truthy (field_of rule "enabled").

(** The RuleResult of a rule on a context, with no [error] property. *)
Definition result_of (call_Function : string -> value -> outcome value)
           (context : value) (rule : value) : RuleResult :=
  let passed := _evaluateCondition call_Function (field_of rule "condition") context in
  {| id := field_of rule "id";
     name := field_of rule "name";
     passed := passed;
     weight := field_of rule "weight";
     score := if passed then field_of rule "weight" else num 0;
     action := field_of rule "action";
     condition := field_of rule "condition";
     description := field_of rule "description";
     error := None |}.

(** Evaluating the guarded condition of [rule] on [context] raises: the
    Function constructor rejects the text (a SyntaxError) or the call
    throws. *)
Definition condition_raises (call_Function : string -> value -> outcome value)
           (context : value) (rule : value) : Prop :=
  exists c e,
    field_of rule "condition" = VStr c
    /\ call_Function (function_body (guard_paths c)) context = Throw e.

(** What the pass reports for a rule: a result carrying the rule's id and
    no error, and [passed = false] with score 0 where the condition
    raises. *)
Definition reported_without_error (call_Function : string -> value -> outcome value)
           (context : value) (rule : value) (result : RuleResult) : Prop :=
  id result = field_of rule "id"
  /\ error result = None
  /\ (condition_raises call_Function context rule ->
      passed result = false /\ score result = num 0
      /\ weight result = field_of rule "weight").

(** The number a score or weight holds. *)
Definition number_of (v : value) : Q :=
  match v with
  | VNum q => q
  | _ => 0
  end.

Definition without_error (results : list RuleResult) : list RuleResult :=
  filter (fun result => negb (ScoringService.has_error result)) results.

Definition sum (l : list Q) : Q := fold_right Qplus 0 l.

(** The sum of [score] over the results without error. *)
Definition sum_scores (results : list RuleResult) : Q :=
  sum (map (fun result => number_of (score result)) (without_error results)).

(** The sum of [|weight|] over the results without error. *)
Definition sum_abs_weights (results : list RuleResult) : Q :=
  sum (map (fun result => Qabs (number_of (weight result))) (without_error results)).


(** Scores and weights are numbers. *)
Definition numeric (result : RuleResult) : Prop :=
  typeof_number (score result) = true /\ typeof_number (weight result) = true.




End Spec.

(** ** Dotted paths of the verification data *)

Module Paths.

Import RuleEngine.

Fixpoint forall_chars (p : ascii -> bool) (s : string) : bool :=
  match s with
  | EmptyString => true
  | String c rest => p c && forall_chars p rest
  end.






End Paths.


(** ** The rule store: queries and temporary rules
       (backend/services/rule-engine.js) *)

Module RuleStore.

Import RuleEngine.

(** The elements of [this.rules] for a call [this.rules.method(...)]: a
    store that is no array has no such method. *)
Definition elements (this : t) (method : string) : outcome (list value) :=
  match rules this with
  | VArr items => Normal items
  | VUndefined | VNull => Throw (Exn TypeError (CannotRead (rules this) method))
  | _ => Throw (Exn TypeError (NotAFunction method))
  end.

(** [items.filter(p)] *)
Fixpoint filter_by (p : value -> outcome bool) (items : list value)
  : outcome (list value) :=
  match items with
  | [] => Normal []
  | r :: rest =>
      keep <- p r ;;
      kept <- filter_by p rest ;;
      Normal (if keep then r :: kept else kept)
  end.

(** [getActiveRules()] *)
Definition getActiveRules (this : t) : outcome (list value) :=
  items <- elements this "filter" ;; RuleEngine.getActiveRules items.

(** [rule => rule.action === action && rule.enabled] *)
Definition enabled_with_action (action : value) (rule : value) : outcome bool :=
  rule_action <- getp rule "action" ;;
  if strict_eq rule_action action
  then enabled <- getp rule "enabled" ;; Normal (truthy enabled)
  else Normal false.

(** [getRulesByAction(action)] *)
Definition getRulesByAction (action : value) (this : t) : outcome (list value) :=
  items <- elements this "filter" ;; filter_by (enabled_with_action action) items.

(** [items.findIndex(p)]; [None] is the answer -1. *)
Fixpoint findIndex (p : value -> outcome bool) (items : list value)
  : outcome (option nat) :=
  match items with
  | [] => Normal None
  | r :: rest =>
      found <- p r ;;
      if found then Normal (Some 0%nat)
      else index <- findIndex p rest ;; Normal (option_map S index)
  end.

(** [items.splice(index, 1)]: the array that is left. *)
Definition splice (index : nat) (items : list value) : list value :=
  firstn index items ++ skipn (S index) items.

(** [r => r.id === ruleId && r.temporary] *)
Definition temporary_with_id (ruleId : value) (r : value) : outcome bool :=
  r_id <- getp r "id" ;;
  if strict_eq r_id ruleId
  then temporary <- getp r "temporary" ;; Normal (truthy temporary)
  else Normal false.

(** [removeTemporaryRule(ruleId)]: the engine after the call. *)
Definition removeTemporaryRule (ruleId : value) (this : t) : outcome t :=
  items <- elements this "findIndex" ;;
  index <- findIndex (temporary_with_id ruleId) items ;;
  match index with
  | Some i =>
      Normal {| rulesPath := rulesPath this;
                rules := VArr (splice i items);
                thresholds := thresholds this;
                lastLoaded := lastLoaded this |}
  | None => Normal this
  end.

(** *** Statistics *)

Module ByAction.
Record t : Type := mk { allow : nat; review : nat; deny : nat }.
End ByAction.

Module ByWeight.
Record t : Type := mk { positive : nat; negative : nat; neutral : nat }.
End ByWeight.

Module Stats.
Record t : Type := mk {
  total : nat;
  active : nat;
  byAction : ByAction.t;
  byWeight : ByWeight.t;
  lastLoaded : option string
}.
End Stats.

(** [r => r.weight > 0], [r => r.weight < 0] and [r => r.weight === 0];
    [None] where the comparison leaves the fragment of [MiniJS.compare]. *)
Definition weight_against_zero (op : MiniJS.binop) (r : value) : option (outcome bool) :=
  match getp r "weight" with
  | Normal w => option_map Normal (MiniJS.compare op w (num 0))
  | Throw e => Some (Throw e)
  end.

(** [items.filter(p).length] *)
Fixpoint count_by (p : value -> option (outcome bool)) (items : list value)
  : option (outcome nat) :=
  match items with
  | [] => Some (Normal 0%nat)
  | r :: rest =>
      MiniJS.and_then (p r) (fun keep =>
      MiniJS.and_then (count_by p rest) (fun n =>
      Some (Normal (if keep then S n else n))))
  end.

Definition lift {A : Type} (m : outcome A) : option (outcome A) := Some m.

(** [getStats()] *)
Definition getStats (this : t) : option (outcome Stats.t) :=
  MiniJS.and_then (lift (getActiveRules this)) (fun activeRules =>
  MiniJS.and_then (lift (elements this "length")) (fun items =>
  MiniJS.and_then (lift (getRulesByAction (VStr "allow") this)) (fun allow =>
  MiniJS.and_then (lift (getRulesByAction (VStr "review") this)) (fun review =>
  MiniJS.and_then (lift (getRulesByAction (VStr "deny") this)) (fun deny =>
  MiniJS.and_then (count_by (weight_against_zero MiniJS.Gt) activeRules) (fun positive =>
  MiniJS.and_then (count_by (weight_against_zero MiniJS.Lt) activeRules) (fun negative =>
  MiniJS.and_then (count_by (weight_against_zero MiniJS.StrictEq) activeRules) (fun neutral =>
  Some (Normal
    {| Stats.total := List.length items;
       Stats.active := List.length activeRules;
       Stats.byAction :=
         {| ByAction.allow := List.length allow;
            ByAction.review := List.length review;
            ByAction.deny := List.length deny |};
       Stats.byWeight :=
         {| ByWeight.positive := positive;
            ByWeight.negative := negative;
            ByWeight.neutral := neutral |};
       Stats.lastLoaded := lastLoaded this |}))))))))).

End RuleStore.

(** ** The services of the server (backend/server.js) *)

Module Server.

Record t : Type := mk {
  ruleEngine : RuleEngine.t;
  scoringService : ScoringService.t
}.


End Server.

(** ** The handlers of the verification route (backend/routes/identity.js) *)

Module Route.




(** An entry of [ruleResults] in the response. *)
Module RuleSummary.
Record t : Type := mk {
  id : value;
  name : value;
  passed : bool;
  weight : value;
  score : value
}.
End RuleSummary.


(** [metadata.fingerprint]; an [age] of [None] is NaN. *)
Module FingerprintInfo.
Record t : Type := mk { collected : bool; age : option Q }.
End FingerprintInfo.

Module BehavioralInfo.
Record t : Type := mk { collected : bool; eventCount : Q; duration : Q }.
End BehavioralInfo.

(** [metadata.facial]; an [error] of [None] is [null]. *)
Module FacialInfo.
Record t : Type := mk { collected : bool; error : option string }.
End FacialInfo.

Module Metadata.
Record t : Type := mk {
  fingerprint : FingerprintInfo.t;
  behavioral : BehavioralInfo.t;
  facial : FacialInfo.t
}.
End Metadata.

Module Response.
Record t : Type := mk {
  score : Q;
  decision : string;
  reasons : list string;
  sessionId : string;
  timestamp : string;
  processingTime : Q;
  ruleResults : list RuleSummary.t;
  metadata : Metadata.t
}.
End Response.






(** The data [POST /test] builds; [now], [stamped] and [started] are the
    readings of [Date.now()] for the request, the fingerprint and the
    behavioral section. *)
Definition testData (session : string) (now stamped started : Q) : Data.t :=
  {| Data.sessionId := session;
     Data.timestamp := now;
     Data.fingerprint :=
       Some {| Fingerprint.userAgent := Some "Test User Agent";
               Fingerprint.language := Some "en-US";
               Fingerprint.platform := Some "Test Platform";
               Fingerprint.screenResolution := Some "1920x1080";
               Fingerprint.timezone := Some "UTC";
               Fingerprint.canvasFingerprint := Some "test_canvas";
               Fingerprint.webglFingerprint := Some "test_webgl";
               Fingerprint.audioFingerprint := Some "test_audio";
               Fingerprint.fonts := Some ["Arial"; "Times New Roman"];
               Fingerprint.timestamp := Some stamped |};
     Data.behavioral :=
       Some {| Behavioral.startTime := Some (started - 60000);
               Behavioral.duration := Some 60000;
               Behavioral.totalEvents := Some 10;
               Behavioral.metrics :=
                 Some {| Metrics.clickFrequency := Some 0.1;
                         Metrics.scrollFrequency := Some 0.05;
                         Metrics.keystrokeFrequency := Some 0.03;
                         Metrics.mouseMovementDistance := None |} |};
     Data.facial := None |}.

End Route.

(** ** Concrete configurations and requests *)

Module Examples.

Import RuleEngine.

Definition custom_rule : value :=
  rule "custom_rule" "Custom Rule" "true" 10 "allow" "Always passes".

(** A rule without [name], [condition] and [action]. *)
Definition incomplete_rule : value :=
  VObj [("id", VStr "invalid_rule"); ("weight", num 10)].

Definition custom_thresholds : value :=
  VObj [("allow", num 90); ("review", num 60); ("deny", num 10)].

Definition good_config : value :=
  VObj [("rules", VArr [custom_rule]); ("thresholds", custom_thresholds)].

Definition bad_config : value :=
  VObj [("rules", VArr [custom_rule; incomplete_rule]);
        ("thresholds", custom_thresholds)].

(** Thresholds with [allow < review < deny]. *)
Definition inverted_thresholds : value :=
  VObj [("allow", num 10); ("review", num 50); ("deny", num 90)].

Definition inverted_config : value :=
  VObj [("rules", VArr [custom_rule]); ("thresholds", inverted_thresholds)].

Definition fresh_engine : t := constructor "./config/rules.json".

(** The engine after a successful load of [good_config]. *)
Definition loaded_engine : t :=
  loadRules (Parsed good_config) "2024-12-01T00:00:00.000Z" fresh_engine.

(** A well-formed rule of weight zero. *)
Definition zero_weight_rule : value :=
  rule "neutral_rule" "Neutral Rule" "true" 0 "review" "Carries no weight".

(** A rule whose condition is not an expression. *)
Definition unparsable_rule : value :=
  rule "unparsable_rule" "Unparsable Rule" "behavioral >" 10 "allow" "Syntax error".




Definition engine_with (items : list value) : t :=
  {| rulesPath := "./config/rules.json"; rules := VArr items;
     thresholds := default_thresholds; lastLoaded := None |}.

(** A request that carries a fingerprint and neither behavioral nor facial
    data. *)
Definition request_without_behavioral : value :=
  VObj [("sessionId", VStr "test_session"); ("timestamp", num 1000);
        ("fingerprint", VObj [("userAgent", VStr "test")])].

(** [_createSafeContext(request_without_behavioral)] *)
Definition context_without_behavioral : value :=
  VObj [("fingerprint", VObj [("userAgent", VStr "test")]);
        ("behavioral", VObj []);
        ("facial", VObj []);
        ("sessionId", VStr "test_session");
        ("timestamp", num 1000)].

(** The scenario thresholds, as [updateThresholds] installs them. *)
Definition scenario_service : ScoringService.t :=
  ScoringService.updateThresholds [("allow", 80); ("review", 50); ("deny", 0)]
    (ScoringService.constructor fresh_engine).


Definition failing (rule_id : string) (w : Z) : RuleResult :=
  {| id := VStr rule_id; name := VStr rule_id; passed := false; weight := num w;
     score := num 0; action := VStr "allow"; condition := VStr "false";
     description := VUndefined; error := None |}.



(** A request stamped at time 0, with no section at all. *)
Definition empty_request : Data.t :=
  {| Data.fingerprint := None; Data.behavioral := None; Data.facial := None;
     Data.sessionId := "test_session"; Data.timestamp := 0 |}.

Definition default_engine : t := _loadDefaultRules fresh_engine.

(** A rule added at run time, and the default engine after
    [addTemporaryRule(temporary_rule)]. *)
Definition temporary_rule : value :=
  VObj [("id", VStr "temporary_rule"); ("name", VStr "Temporary Rule");
        ("condition", VStr "true"); ("weight", num 5); ("action", VStr "allow")].

(** A rule whose action is none of [allow], [review], [deny]. *)
Definition unlisted_action_rule : value :=
  rule "block_rule" "Block Rule" "true" 10 "block" "Action outside the enumeration".

Definition with_temporary : t :=
  match addTemporaryRule temporary_rule default_engine with
  | Normal engine => engine
  | Throw _ => default_engine
  end.

End Examples.

(** ** Properties of the rule store *)

Import RuleEngine.

Lemma absent_falsy (v : value) : Spec.absent v = true -> truthy v = false.
Proof. destruct v; simpl; congruence. Qed.

Lemma validate_rule_invalid (rule : value) :
  Spec.invalid_rule rule = true -> exists e, validate_rule rule = Throw e.
Proof.
  unfold Spec.invalid_rule, Spec.field_of, validate_rule, structure_invalid,
    or_else, falsy_prop, throw_error.
  destruct rule; simpl; intros H; try (eexists; reflexivity).
  repeat match goal with
         | |- context [match lookup ?k props with _ => _ end] =>
             let v := fresh "v" in
             remember (match lookup k props with Some x => x | None => VUndefined end) as v
         end.
  repeat match goal with
         | H : _ = match lookup _ _ with _ => _ end |- _ => clear H
         end.
  repeat rewrite orb_true_iff in H.
  destruct H as [[[[H | H] | H] | H] | H];
    try (apply absent_falsy in H; rewrite H; simpl).
  all: repeat match goal with
         | |- context [if ?b then _ else _] => destruct b eqn:?; simpl
         end; try (eexists; reflexivity); try congruence.
Qed.

Lemma validate_each_invalid (batch : list value) :
  (exists rule, In rule batch /\ Spec.invalid_rule rule = true) ->
  exists e, validate_each batch = Throw e.
Proof.
  intros (rule & Hin & Hbad).
  induction batch as [|r rest IH]; [destruct Hin|].
  simpl. destruct (validate_rule r) as [[]|e] eqn:Hr; simpl.
  - destruct Hin as [->|Hin].
    + apply validate_rule_invalid in Hbad. destruct Hbad as (e & He). congruence.
    + apply IH, Hin.
  - eexists; reflexivity.
Qed.

Lemma getp_normal_twice (v : value) (k k' : string) (x : value) :
  getp v k = Normal x -> exists y, getp v k' = Normal y.
Proof.
  destruct v; simpl; intros H; try discriminate; eexists; reflexivity.
Qed.

(** What a load does when the per-rule validation raises. *)
Lemma loadRules_throw (this : t) (now : string) (config : value) (batch : list value) :
  getp config "rules" = Normal (VArr batch) ->
  (exists e, validate_each batch = Throw e) ->
  rules (loadRules (Parsed config) now this) = VArr default_rules
  /\ thresholds (loadRules (Parsed config) now this) = default_thresholds.
Proof.
  intros Hrules (e & He).
  destruct (getp_normal_twice _ _ "thresholds" _ Hrules) as (th & Hth).
  unfold loadRules, loadRules_try. rewrite Hrules, Hth.
  unfold _validateRules; simpl. rewrite He. split; reflexivity.
Qed.

(** What a load does when the per-rule validation passes. *)
Lemma loadRules_normal (this : t) (now : string) (config : value) (batch : list value)
      (th : value) :
  getp config "rules" = Normal (VArr batch) ->
  getp config "thresholds" = Normal th ->
  validate_each batch = Normal tt ->
  rules (loadRules (Parsed config) now this) = VArr batch
  /\ thresholds (loadRules (Parsed config) now this) = js_or th (thresholds this).
Proof.
  intros Hrules Hth Hok.
  unfold loadRules, loadRules_try. rewrite Hrules, Hth.
  unfold _validateRules; simpl. rewrite Hok. split; reflexivity.
Qed.

(** C1, as the code has it: for every store state (first boot or not) and
    every configuration whose rule batch contains an invalid rule, the
    load installs no rule and no threshold of the batch; the store's rules
    and thresholds become the built-in default rule set and the default
    thresholds. *)
Theorem load_invalid_batch_installs_defaults
        (this : t) (now : string) (config : value) (batch : list value) :
  getp config "rules" = Normal (VArr batch) ->
  (exists rule, In rule batch /\ Spec.invalid_rule rule = true) ->
  rules (loadRules (Parsed config) now this) = VArr default_rules
  /\ thresholds (loadRules (Parsed config) now this) = default_thresholds.
Proof.
  intros Hrules Hbad.
  apply loadRules_throw with (batch := batch); [exact Hrules|].
  apply validate_each_invalid, Hbad.
Qed.

Lemma load_invalid_batch_installs_defaults_witness :
  rules (loadRules (Parsed Examples.bad_config) "2024-12-02T00:00:00.000Z"
                   Examples.loaded_engine) = VArr default_rules
  /\ thresholds (loadRules (Parsed Examples.bad_config) "2024-12-02T00:00:00.000Z"
                           Examples.loaded_engine) = default_thresholds.
Proof.
  apply (load_invalid_batch_installs_defaults Examples.loaded_engine
           "2024-12-02T00:00:00.000Z" Examples.bad_config
           [Examples.custom_rule; Examples.incomplete_rule]).
  - reflexivity.
  - exists Examples.incomplete_rule. split; [right; left; reflexivity | reflexivity].
Defined.

(** C1, counterexample: a successful load of one custom rule with custom
    thresholds, followed by a load of a batch with an invalid rule, does
    not leave the rules and thresholds of the first load in place. *)
Lemma load_invalid_batch_replaces_state :
  rules Examples.loaded_engine = VArr [Examples.custom_rule]
  /\ thresholds Examples.loaded_engine = Examples.custom_thresholds
  /\ Spec.invalid_rule Examples.incomplete_rule = true
  /\ rules (loadRules (Parsed Examples.bad_config) "2024-12-02T00:00:00.000Z"
                      Examples.loaded_engine)
     <> rules Examples.loaded_engine
  /\ thresholds (loadRules (Parsed Examples.bad_config) "2024-12-02T00:00:00.000Z"
                           Examples.loaded_engine)
     <> thresholds Examples.loaded_engine.
Proof.
  repeat split; try reflexivity; vm_compute; discriminate.
Qed.

(** C3, as the code has it: the load does not check the ordering of the
    thresholds.  For every configuration whose rules pass the per-rule
    validation, the thresholds object of the configuration is installed
    as it is, whatever the order of its numbers. *)
Theorem load_installs_thresholds_unchecked
        (this : t) (now : string) (config : value) (batch : list value) (th : value) :
  getp config "rules" = Normal (VArr batch) ->
  getp config "thresholds" = Normal th ->
  truthy th = true ->
  validate_each batch = Normal tt ->
  rules (loadRules (Parsed config) now this) = VArr batch
  /\ thresholds (loadRules (Parsed config) now this) = th.
Proof.
  intros Hrules Hth Htruthy Hok.
  destruct (loadRules_normal this now config batch th Hrules Hth Hok) as [H1 H2].
  split; [exact H1|]. rewrite H2. unfold js_or. rewrite Htruthy. reflexivity.
Qed.

Lemma load_installs_thresholds_unchecked_witness :
  rules (loadRules (Parsed Examples.inverted_config) "2024-12-01T00:00:00.000Z"
                   Examples.fresh_engine) = VArr [Examples.custom_rule]
  /\ thresholds (loadRules (Parsed Examples.inverted_config) "2024-12-01T00:00:00.000Z"
                           Examples.fresh_engine) = Examples.inverted_thresholds.
Proof.
  apply (load_installs_thresholds_unchecked Examples.fresh_engine
           "2024-12-01T00:00:00.000Z" Examples.inverted_config
           [Examples.custom_rule] Examples.inverted_thresholds);
    reflexivity.
Defined.

(** C3, counterexample: thresholds with allow = 10, review = 50 and
    deny = 90 violate the ordering and are installed by the load. *)
Lemma load_installs_inverted_thresholds :
  Spec.violates_ordering Examples.inverted_thresholds = true
  /\ thresholds (loadRules (Parsed Examples.inverted_config) "2024-12-01T00:00:00.000Z"
                           Examples.fresh_engine) = Examples.inverted_thresholds.
Proof.
  split; reflexivity.
Qed.

(** C10, at the failing input: a rule with non-empty id, name and
    condition, a listed action and the numeric weight 0 is refused by the
    per-rule validation of the load and by [addTemporaryRule], on an
    engine that holds no rule with its id. *)
Theorem zero_weight_rule_refused :
  validate_rule Examples.zero_weight_rule
  = Throw (Exn PlainError (InvalidRule Examples.zero_weight_rule))
  /\ addTemporaryRule Examples.zero_weight_rule Examples.fresh_engine
     = Throw (Exn PlainError InvalidRuleStructure)
  /\ rules (loadRules (Parsed (VObj [("rules", VArr [Examples.zero_weight_rule])]))
                      "2024-12-01T00:00:00.000Z" Examples.fresh_engine)
     = VArr default_rules.
Proof.
  repeat split; reflexivity.
Qed.

(** Beside the failing input of C10: a rule with truthy id, name and
    condition, a listed action and any non-zero numeric weight, negative
    ones included, passes the per-rule validation. *)
Lemma validate_rule_accepts_nonzero_weight
      (props : list (string * value)) (id name condition action : value) (w : Q) :
  lookup "id" props = Some id -> truthy id = true ->
  lookup "name" props = Some name -> truthy name = true ->
  lookup "condition" props = Some condition -> truthy condition = true ->
  lookup "action" props = Some action -> action_listed action = true ->
  lookup "weight" props = Some (VNum w) -> ~ w == 0 ->
  validate_rule (VObj props) = Normal tt.
Proof.
  intros Hid Tid Hname Tname Hcond Tcond Haction Taction Hweight Hw.
  assert (Taction' : truthy action = true).
  { destruct action as [| | | |a| |]; try discriminate.
    unfold action_listed in Taction. simpl in Taction.
    destruct a; [discriminate | reflexivity]. }
  assert (Tw : truthy (VNum w) = true).
  { simpl. destruct (Qeq_bool w 0) eqn:E; [|reflexivity].
    apply Qeq_bool_iff in E. contradiction. }
  unfold validate_rule, structure_invalid, or_else, falsy_prop, getp, bind.
  rewrite Hid, Hname, Hcond, Haction, Hweight, Tid, Tname, Tcond, Taction', Tw, Taction.
  reflexivity.
Qed.

(** ** Properties of the evaluation pass *)

Section EvaluationPass.

Variable call_Function : string -> value -> outcome value.

Lemma getp_field_of (rule : value) (k : string) :
  is_nullish rule = false -> getp rule k = Normal (Spec.field_of rule k).
Proof.
  unfold Spec.field_of. destruct rule; simpl; intros H; try discriminate; reflexivity.
Qed.

Lemma evaluateRule_normal (rule data context : value) :
  _createSafeContext data = Normal context ->
  is_nullish rule = false ->
  _evaluateRule call_Function rule data = Normal (Spec.result_of call_Function context rule).
Proof.
  intros Hctx Hrule. unfold _evaluateRule. rewrite Hctx. simpl.
  rewrite !(getp_field_of rule) by exact Hrule. reflexivity.
Qed.

Lemma evaluate_loop_normal (data context : value) (items : list value) :
  _createSafeContext data = Normal context ->
  Forall (fun rule => is_nullish rule = false) items ->
  forall results,
    evaluate_loop call_Function data results items
    = Normal (results ++ map (Spec.result_of call_Function context) (filter Spec.enabled items)).
Proof.
  intros Hctx Hitems. induction Hitems as [|rule rest Hrule _ IH]; intros results; simpl.
  - rewrite app_nil_r. reflexivity.
  - unfold evaluate_step. rewrite (getp_field_of rule "enabled") by exact Hrule. simpl.
    unfold Spec.enabled. destruct (truthy (Spec.field_of rule "enabled")); simpl.
    + rewrite (evaluateRule_normal rule data context Hctx Hrule). simpl.
      rewrite IH, <- app_assoc. reflexivity.
    + apply IH.
Qed.

Lemma evaluateRules_normal (this : t) (data context : value) (items : list value) :
  rules this = VArr items ->
  _createSafeContext data = Normal context ->
  Forall (fun rule => is_nullish rule = false) items ->
  evaluateRules call_Function this data
  = Normal (map (Spec.result_of call_Function context) (filter Spec.enabled items)).
Proof.
  intros Hrules Hctx Hitems. unfold evaluateRules. rewrite Hrules. simpl.
  apply (evaluate_loop_normal data context items Hctx Hitems []).
Qed.

Lemma result_of_reported (context rule : value) :
  Spec.reported_without_error call_Function context rule
    (Spec.result_of call_Function context rule).
Proof.
  split; [reflexivity|]. split; [reflexivity|].
  intros (c & e & Hc & He). unfold Spec.result_of. simpl.
  unfold _evaluateCondition. rewrite Hc, He. repeat split; reflexivity.
Qed.

(** C2, as the code has it: on a context object, the pass yields one
    result per enabled rule, in store order, and none of them carries an
    error; the result of a rule whose condition fails to parse (or raises
    in any other way) has passed = false and score 0, and keeps the
    rule's weight. *)
Theorem unparsable_condition_reported_as_false
        (this : t) (data context : value) (items : list value) :
  rules this = VArr items ->
  _createSafeContext data = Normal context ->
  Forall (fun rule => is_nullish rule = false) items ->
  exists results,
    evaluateRules call_Function this data = Normal results
    /\ Forall2 (Spec.reported_without_error call_Function context)
               (filter Spec.enabled items) results.
Proof.
  intros Hrules Hctx Hitems.
  exists (map (Spec.result_of call_Function context) (filter Spec.enabled items)).
  split; [apply evaluateRules_normal; assumption|].
  induction (filter Spec.enabled items) as [|rule rest IH]; simpl; constructor.
  - apply result_of_reported.
  - exact IH.
Qed.

End EvaluationPass.

Lemma unparsable_condition_reported_as_false_witness :
  exists results,
    evaluateRules MiniJS.engine
      (Examples.engine_with [Examples.unparsable_rule; Examples.custom_rule])
      Examples.request_without_behavioral = Normal results
    /\ Forall2 (Spec.reported_without_error MiniJS.engine
                  Examples.context_without_behavioral)
               (filter Spec.enabled [Examples.unparsable_rule; Examples.custom_rule])
               results.
Proof.
  apply (unparsable_condition_reported_as_false MiniJS.engine
           (Examples.engine_with [Examples.unparsable_rule; Examples.custom_rule])
           Examples.request_without_behavioral Examples.context_without_behavioral
           [Examples.unparsable_rule; Examples.custom_rule]).
  - reflexivity.
  - reflexivity.
  - repeat constructor.
Defined.

(** C2, counterexample: the condition [behavioral >] is not an
    expression, the Function constructor rejects it, and the result of
    the enabled rule that carries it has no error. *)
Lemma unparsable_condition_has_no_error :
  MiniJS.parse (guard_paths "behavioral >") = MiniJS.SyntaxFailure
  /\ MiniJS.run (function_body (guard_paths "behavioral >"))
                Examples.context_without_behavioral
     = Some (Throw (Exn SyntaxError (Msg "Unexpected token")))
  /\ Spec.enabled Examples.unparsable_rule = true
  /\ exists result,
       evaluateRules MiniJS.engine (Examples.engine_with [Examples.unparsable_rule])
                     Examples.request_without_behavioral = Normal [result]
       /\ id result = VStr "unparsable_rule"
       /\ passed result = false
       /\ error result = None.
Proof.
  repeat split; try reflexivity.
  eexists. repeat split; reflexivity.
Qed.


(** ** Properties of the scoring service *)

Import Constants ScoringService.

Lemma Qle_bool_false (x y : Q) : Qle_bool x y = false <-> y < x.
Proof.
  split; intros H.
  - apply Qnot_le_lt. intros Hle. apply Qle_bool_iff in Hle. congruence.
  - destruct (Qle_bool x y) eqn:E; [|reflexivity].
    apply Qle_bool_iff in E. exfalso. exact (Qlt_not_le _ _ H E).
Qed.

(** C4: with numeric [allow] and [review] thresholds, the decision is
    allow exactly when the score reaches [allow], review exactly when it
    reaches [review] and stays below [allow], and deny exactly when
    neither holds. *)
Theorem getDecision_by_thresholds (this : ScoringService.t) (s allow review : Q) :
  prop "allow" (thresholds this) = Some allow ->
  prop "review" (thresholds this) = Some review ->
  (getDecision this s = DECISION_TYPES.ALLOW <-> allow <= s)
  /\ (getDecision this s = DECISION_TYPES.REVIEW <-> review <= s /\ s < allow)
  /\ (getDecision this s = DECISION_TYPES.DENY
      <-> ~ allow <= s /\ ~ (review <= s /\ s < allow)).
Proof.
  intros Hallow Hreview. unfold getDecision. rewrite Hallow, Hreview. simpl.
  unfold DECISION_TYPES.ALLOW, DECISION_TYPES.REVIEW, DECISION_TYPES.DENY.
  destruct (Qle_bool allow s) eqn:Ea.
  - apply Qle_bool_iff in Ea.
    split; [split; [intros _; exact Ea | reflexivity] |].
    split; [split; [discriminate | intros [_ H]; exfalso; exact (Qlt_not_le _ _ H Ea)] |].
    split; [discriminate | intros [H _]; contradiction].
  - apply Qle_bool_false in Ea. destruct (Qle_bool review s) eqn:Er.
    + apply Qle_bool_iff in Er.
      split; [split; [discriminate | intros H; exfalso; exact (Qlt_not_le _ _ Ea H)] |].
      split; [split; [intros _; split; assumption | reflexivity] |].
      split; [discriminate | intros [_ H]; exfalso; apply H; split; assumption].
    + apply Qle_bool_false in Er.
      split; [split; [discriminate | intros H; exfalso; exact (Qlt_not_le _ _ Ea H)] |].
      split; [split; [discriminate
                     | intros [H _]; exfalso; exact (Qlt_not_le _ _ Er H)] |].
      split; [intros _; split; [intros H; exact (Qlt_not_le _ _ Ea H)
                               | intros [H _]; exact (Qlt_not_le _ _ Er H)]
             | reflexivity].
Qed.

(** The scenario of C4: with allow = 80, review = 50 and deny = 0, the
    score 80 maps to allow and 79.999 to review. *)
Lemma getDecision_by_thresholds_witness :
  getDecision Examples.scenario_service 80 = DECISION_TYPES.ALLOW
  /\ getDecision Examples.scenario_service 79.999 = DECISION_TYPES.REVIEW.
Proof.
  split.
  - apply (getDecision_by_thresholds Examples.scenario_service 80 80 50);
      [reflexivity | reflexivity | ].
    unfold Qle; simpl; lia.
  - apply (getDecision_by_thresholds Examples.scenario_service 79.999 80 50);
      [reflexivity | reflexivity | ].
    split; [unfold Qle | unfold Qlt]; simpl; lia.
Defined.

Lemma prop_assign_other (k k' : string) (x : Q) (o : number_object) :
  k' <> k -> prop k (assign k' x o) = prop k o.
Proof.
  intros Hk. induction o as [|[k0 x0] rest IH]; simpl.
  - destruct (k' =? k) eqn:E; [apply String.eqb_eq in E; contradiction | reflexivity].
  - destruct (k0 =? k') eqn:E0; simpl.
    + apply String.eqb_eq in E0. subst k0.
      destruct (k' =? k) eqn:E; [apply String.eqb_eq in E; contradiction | reflexivity].
    + destruct (k0 =? k); [reflexivity | exact IH].
Qed.

Lemma prop_merge_none (k : string) (b a : number_object) :
  prop k b = None -> prop k (merge a b) = prop k a.
Proof.
  unfold merge. revert a. induction b as [|[k' x] rest IH]; intros a Hb; simpl.
  - reflexivity.
  - simpl in Hb. destruct (k' =? k) eqn:E; [discriminate|].
    rewrite IH by exact Hb. apply prop_assign_other.
    intros ->. rewrite String.eqb_refl in E. discriminate.
Qed.

(** C5: the service starts with [DEFAULT_THRESHOLDS], whose keys are
    upper-case, and [getDecision] reads the lower-case keys, so every
    score maps to deny; it stays so after an update that defines neither
    [allow] nor [review], and an update with the lower-case keys makes
    the decision follow them. *)
Theorem default_thresholds_always_deny (ruleEngine : RuleEngine.t) (s : Q) :
  thresholds (ScoringService.constructor ruleEngine)
  = [("ALLOW", 80); ("REVIEW", 50); ("DENY", 0)]
  /\ getDecision (ScoringService.constructor ruleEngine) s = DECISION_TYPES.DENY
  /\ getDecision (ScoringService.constructor ruleEngine) 100 = DECISION_TYPES.DENY
  /\ (forall newThresholds,
        prop "allow" newThresholds = None ->
        prop "review" newThresholds = None ->
        getDecision (updateThresholds newThresholds (ScoringService.constructor ruleEngine)) s
        = DECISION_TYPES.DENY)
  /\ (forall allow review deny,
        getDecision (updateThresholds [("allow", allow); ("review", review); ("deny", deny)]
                                      (ScoringService.constructor ruleEngine)) s
        = if Qle_bool allow s then DECISION_TYPES.ALLOW
          else if Qle_bool review s then DECISION_TYPES.REVIEW
          else DECISION_TYPES.DENY).
Proof.
  repeat split; try reflexivity.
  intros newThresholds Hallow Hreview. unfold getDecision, updateThresholds. simpl.
  rewrite !prop_merge_none by assumption. reflexivity.
Qed.

Lemma rule_totals_sums (results : list RuleResult) :
  Forall (fun result => has_error result = false -> Spec.numeric result) results ->
  forall a b, exists a' b',
    rule_totals results a b = Some (a', b')
    /\ a' == a + Spec.sum_scores results
    /\ b' == b + Spec.sum_abs_weights results.
Proof.
  unfold Spec.sum_scores, Spec.sum_abs_weights, Spec.without_error.
  induction 1 as [|result rest Hnum _ IH]; intros a b; simpl.
  - exists a, b. split; [reflexivity|]. split; ring.
  - destruct (has_error result) eqn:E; simpl.
    + apply IH.
    + destruct (Hnum eq_refl) as [Hs Hw].
      destruct (RuleEngine.score result) as [| | |s| | |]; try discriminate.
      destruct (RuleEngine.weight result) as [| | |w| | |]; try discriminate.
      destruct (IH (a + s) (b + Qabs w)) as (a' & b' & Heq & Ha & Hb).
      exists a', b'. split; [exact Heq|]. simpl. split.
      * rewrite Ha. ring.
      * rewrite Hb. ring.
Qed.





(** C8: a request without behavioral data scores exactly 30 on the
    behavioral scorer, one without fingerprint exactly 0 on the
    fingerprint scorer, and one without facial data the neutral 50; the
    breakdown of [calculateScore] carries these values. *)
Theorem absent_sections_scores (data : Data.t) :
  (Data.behavioral data = None ->
   _calculateBehavioralScore (Data.behavioral data) = 30)
  /\ (Data.fingerprint data = None ->
      _calculateFingerprintScore (Data.fingerprint data) = 0)
  /\ (Data.facial data = None ->
      _calculateFacialScore (Data.facial data) = 50)
  /\ (forall now, exists result,
        calculateScore now data [] = Some result
        /\ (Data.behavioral data = None -> behavioral (breakdown result) = 30)
        /\ (Data.fingerprint data = None -> fingerprint (breakdown result) = 0)
        /\ (Data.facial data = None -> facial (breakdown result) = 50)).
Proof.
  split; [intros ->; reflexivity|].
  split; [intros ->; reflexivity|].
  split; [intros ->; reflexivity|].
  intros now. eexists. split; [reflexivity|]. simpl.
  split; [intros ->; reflexivity|].
  split; intros ->; reflexivity.
Qed.





(** ** Paths through absent data *)

#[local] Arguments guard_replacement : simpl never.

Lemma append_nil_r (s : string) : s +++ EmptyString = s.
Proof. induction s; simpl; congruence. Qed.

Lemma append_assoc (a b c : string) : (a +++ b) +++ c = a +++ (b +++ c).
Proof. induction a; simpl; congruence. Qed.
















(** Single steps of the lexer. *)



























(** ** The pass and the scorer together *)




(** The conditions of the built-in rules lie in the interpreted fragment:
    on the context of a request without any section each of them either
    yields a value or raises. *)
Lemma default_conditions_interpreted :
  exists context,
    _createSafeContext (Data.to_json Examples.empty_request) = Normal context
    /\ Forall (fun rule =>
                 exists c o,
                   Spec.field_of rule "condition" = VStr c
                   /\ MiniJS.run (function_body (guard_paths c)) context = Some o)
              default_rules.
Proof.
  eexists. split; [reflexivity|].
  repeat constructor; eexists; eexists; split; reflexivity.
Qed.
(** ** Further properties of the rule store *)

Lemma validate_each_Forall (items : list value) :
  validate_each items = Normal tt
  <-> Forall (fun rule => validate_rule rule = Normal tt) items.
Proof.
  induction items as [|r rest IH]; simpl.
  - split; intros; [constructor | reflexivity].
  - split.
    + intros H. destruct (validate_rule r) as [[]|e] eqn:Hr; simpl in H; [|discriminate].
      constructor; [exact Hr | apply IH, H].
    + intros H. inversion H as [|? ? Hr Hrest]; subst. rewrite Hr. simpl. apply IH, Hrest.
Qed.

Lemma default_rules_valid :
  Forall (fun rule => validate_rule rule = Normal tt) default_rules.
Proof. apply validate_each_Forall. vm_compute. reflexivity. Qed.

Lemma validated_store_is_array (this : RuleEngine.t) :
  _validateRules this = Normal tt ->
  truthy (rules this) = true ->
  exists items, rules this = VArr items /\ validate_each items = Normal tt.
Proof.
  unfold _validateRules. intros H Ht.
  destruct (rules this) as [| | b | q | s | items | props]; simpl in H; try discriminate.
  - destruct s as [|c s]; [discriminate Ht|]. simpl in H. discriminate H.
  - exists items. split; [reflexivity | exact H].
Qed.

Lemma loadRules_store_valid (src : config_source) (now : string) (this : RuleEngine.t) :
  exists items,
    rules (loadRules src now this) = VArr items
    /\ Forall (fun rule => validate_rule rule = Normal tt) items.
Proof.
  assert (Hdefault : forall st, exists items,
             rules (_loadDefaultRules st) = VArr items
             /\ Forall (fun rule => validate_rule rule = Normal tt) items).
  { intros st. exists default_rules. split; [reflexivity | apply default_rules_valid]. }
  unfold loadRules, loadRules_try.
  destruct src as [e | e | config]; try apply Hdefault.
  destruct (getp config "rules") as [cr | e]; [|apply Hdefault].
  destruct (getp config "thresholds") as [cth | e]; [|apply Hdefault].
  match goal with |- context [_validateRules ?s] => set (this1 := s) end.
  destruct (_validateRules this1) as [[]|e] eqn:Hv; [|apply Hdefault].
  destruct (validated_store_is_array this1 Hv) as [items [Hr Hi]].
  - subst this1. simpl. unfold js_or. destruct (truthy cr) eqn:Hc; [exact Hc | reflexivity].
  - exists items. split; [exact Hr | apply validate_each_Forall, Hi].
Qed.


(** X2.  A configuration whose rules fail validation leaves the default
    rules in the store and still stamps the load: [lastLoaded] reads the
    date of the failed load.  A file that cannot be read or parsed leaves
    [lastLoaded] as it was. *)
Theorem failed_validation_stamps_load
        (this : RuleEngine.t) (now : string) (config : value) (batch : list value) :
  getp config "rules" = Normal (VArr batch) ->
  (exists e, validate_each batch = Throw e) ->
  rules (loadRules (Parsed config) now this) = VArr default_rules
  /\ lastLoaded (loadRules (Parsed config) now this) = Some now
  /\ (forall e, lastLoaded (loadRules (ReadFailure e) now this) = lastLoaded this)
  /\ (forall e, lastLoaded (loadRules (ParseFailure e) now this) = lastLoaded this).
Proof.
  intros Hrules [e He].
  destruct (getp_normal_twice config "rules" "thresholds" _ Hrules) as [th Hth].
  unfold loadRules, loadRules_try. rewrite Hrules, Hth.
  unfold _validateRules. cbn [rules js_or truthy iterate bind]. rewrite He.
  repeat split; reflexivity.
Qed.

Lemma failed_validation_stamps_load_witness :
  rules (loadRules (Parsed Examples.bad_config) "2024-12-02T00:00:00.000Z"
                   Examples.fresh_engine) = VArr default_rules
  /\ lastLoaded (loadRules (Parsed Examples.bad_config) "2024-12-02T00:00:00.000Z"
                           Examples.fresh_engine) = Some "2024-12-02T00:00:00.000Z".
Proof.
  pose proof (failed_validation_stamps_load Examples.fresh_engine
                "2024-12-02T00:00:00.000Z" Examples.bad_config
                [Examples.custom_rule; Examples.incomplete_rule] eq_refl) as H.
  destruct H as [H1 [H2 _]].
  - eexists. vm_compute. reflexivity.
  - split; assumption.
Defined.

(** X3.  Loading the same source twice leaves the rules and the thresholds
    of the first load: a reload of an unchanged file changes neither. *)
Theorem reload_unchanged_source_idempotent
        (src : config_source) (now1 now2 : string) (this : RuleEngine.t) :
  rules (reloadRules src now2 (loadRules src now1 this))
  = rules (loadRules src now1 this)
  /\ RuleEngine.thresholds (reloadRules src now2 (loadRules src now1 this))
     = RuleEngine.thresholds (loadRules src now1 this).
Proof.
  unfold reloadRules.
  destruct src as [e | e | config]; try (split; reflexivity).
  unfold loadRules, loadRules_try.
  destruct (getp config "rules") as [cr | e]; [|split; reflexivity].
  destruct (getp config "thresholds") as [cth | e]; [|split; reflexivity].
  unfold _validateRules. cbn [rules].
  destruct (bind (iterate (js_or cr (VArr []))) validate_each) as [[] | e] eqn:Hv;
    cbn [rules RuleEngine.thresholds _loadDefaultRules]; rewrite ?Hv;
    cbn [rules RuleEngine.thresholds _loadDefaultRules].
  - split; [reflexivity|]. unfold js_or. destruct (truthy cth); reflexivity.
  - split; reflexivity.
Qed.

(** *** Temporary rules *)

Lemma lookup_set_prop_same (k : string) (v : value) (props : list (string * value)) :
  lookup k (set_prop k v props) = Some v.
Proof.
  induction props as [|[k' v'] rest IH]; simpl.
  - rewrite String.eqb_refl. reflexivity.
  - destruct (k' =? k) eqn:Hk; simpl.
    + rewrite String.eqb_refl. reflexivity.
    + rewrite Hk. exact IH.
Qed.

Lemma lookup_set_prop_other (k k' : string) (v : value) (props : list (string * value)) :
  k' <> k -> lookup k (set_prop k' v props) = lookup k props.
Proof.
  intros Hne. induction props as [|[k0 v0] rest IH]; simpl.
  - apply String.eqb_neq in Hne. rewrite Hne. reflexivity.
  - destruct (k0 =? k') eqn:Hk; simpl.
    + apply String.eqb_eq in Hk. subst k0.
      apply String.eqb_neq in Hne. rewrite Hne. reflexivity.
    + rewrite IH. reflexivity.
Qed.

Lemma structure_valid_object (rule : value) :
  structure_invalid rule = Normal false ->
  exists props, rule = VObj props.
Proof.
  destruct rule; try (intros H; discriminate H).
  intros _. eexists. reflexivity.
Qed.

Lemma strict_eq_refl (v : value) : MiniJS.is_object v = false -> strict_eq v v = true.
Proof.
  destruct v; simpl; intros H; try reflexivity; try discriminate H.
  - apply Bool.eqb_reflx.
  - apply Qeq_bool_iff. reflexivity.
  - apply String.eqb_refl.
Qed.

(** The rules before a given one do not carry its id. *)
Lemma find_by_id_none (rule_id : value) (items : list value) :
  find_by_id rule_id items = Normal None ->
  Forall (fun r => exists v, getp r "id" = Normal v /\ strict_eq v rule_id = false) items.
Proof.
  induction items as [|r rest IH]; simpl; intros H; [constructor|].
  destruct (getp r "id") as [v|e] eqn:Hg; simpl in H; [|discriminate].
  destruct (strict_eq v rule_id) eqn:Hs; [discriminate|].
  constructor; [exists v; split; [exact Hg | exact Hs] | apply IH, H].
Qed.

Lemma find_by_id_last (rule_id : value) (items : list value) (added : value) :
  Forall (fun r => exists v, getp r "id" = Normal v /\ strict_eq v rule_id = false) items ->
  getp added "id" = Normal rule_id ->
  strict_eq rule_id rule_id = true ->
  find_by_id rule_id (items ++ [added]) = Normal (Some added).
Proof.
  intros Hall Hid Hrefl. induction Hall as [|r rest [v [Hg Hs]] _ IH]; simpl.
  - rewrite Hid. simpl. rewrite Hrefl. reflexivity.
  - rewrite Hg. simpl. rewrite Hs. exact IH.
Qed.

Lemma findIndex_last (rule_id : value) (items : list value) (added : value) :
  Forall (fun r => exists v, getp r "id" = Normal v /\ strict_eq v rule_id = false) items ->
  RuleStore.temporary_with_id rule_id added = Normal true ->
  RuleStore.findIndex (RuleStore.temporary_with_id rule_id) (items ++ [added])
  = Normal (Some (List.length items)).
Proof.
  intros Hall Hlast. induction Hall as [|r rest [v [Hg Hs]] _ IH]; simpl.
  - rewrite Hlast. reflexivity.
  - unfold RuleStore.temporary_with_id at 1. rewrite Hg. simpl. rewrite Hs.
    rewrite IH. reflexivity.
Qed.

Lemma splice_last (items : list value) (added : value) :
  RuleStore.splice (List.length items) (items ++ [added]) = items.
Proof.
  unfold RuleStore.splice.
  rewrite firstn_app, Nat.sub_diag, firstn_all. cbn [firstn]. rewrite app_nil_r.
  rewrite skipn_all2; [apply app_nil_r|].
  rewrite length_app. simpl. lia.
Qed.

(** What a successful [addTemporaryRule] leaves. *)
Lemma addTemporaryRule_normal (rule : value) (this this' : RuleEngine.t) :
  addTemporaryRule rule this = Normal this' ->
  exists items props rule_id,
    rule = VObj props
    /\ rules this = VArr items
    /\ getp rule "id" = Normal rule_id
    /\ find_by_id rule_id items = Normal None
    /\ this' = {| rulesPath := rulesPath this;
                  rules := VArr (items ++
                    [VObj (set_prop "temporary" (VBool true)
                          (set_prop "enabled"
                             (VBool (negb (strict_eq (Spec.field_of rule "enabled")
                                                     (VBool false))))
                             props))]);
                  RuleEngine.thresholds := RuleEngine.thresholds this;
                  lastLoaded := lastLoaded this |}.
Proof.
  unfold addTemporaryRule. intros H.
  destruct (structure_invalid rule) as [[|]|e] eqn:Hs; simpl in H; try discriminate.
  destruct (structure_valid_object rule Hs) as [props ->].
  destruct (rules this) as [| | | | | items |] eqn:Hr; try discriminate.
  simpl in H.
  match type of H with context [find_by_id ?i items] => set (rule_id := i) in * end.
  destruct (find_by_id rule_id items) as [[r|]|e] eqn:Hf; simpl in H; try discriminate.
  exists items, props, rule_id. repeat split; try reflexivity; try assumption.
  inversion H. reflexivity.
Qed.

(** X4.  A temporary rule that is accepted is appended to the store with
    its id, marked [temporary] and enabled unless it says [enabled: false];
    adding the same rule again is refused as a duplicate. *)
Theorem temporary_rule_appended_once (rule : value) (this this' : RuleEngine.t) :
  addTemporaryRule rule this = Normal this' ->
  MiniJS.is_object (Spec.field_of rule "id") = false ->
  exists items added,
    rules this = VArr items
    /\ rules this' = VArr (items ++ [added])
    /\ Spec.field_of added "id" = Spec.field_of rule "id"
    /\ Spec.field_of added "temporary" = VBool true
    /\ Spec.field_of added "enabled"
       = VBool (negb (strict_eq (Spec.field_of rule "enabled") (VBool false)))
    /\ addTemporaryRule rule this'
       = Throw (Exn PlainError (RuleExists (Spec.field_of rule "id"))).
Proof.
  intros Hadd Hprim.
  pose proof Hadd as Hadd0.
  destruct (addTemporaryRule_normal rule this this' Hadd)
    as [items [props [rule_id [-> [Hr [Hid [Hfind ->]]]]]]].
  assert (Hfield : Spec.field_of (VObj props) "id" = rule_id).
  { unfold Spec.field_of. rewrite Hid. reflexivity. }
  rewrite Hfield in *.
  eexists items, _. split; [exact Hr|]. split; [reflexivity|].
  assert (Hadded_id :
            forall e, getp (VObj (set_prop "temporary" (VBool true)
                            (set_prop "enabled" e props))) "id" = Normal rule_id).
  { intros e. simpl. rewrite !lookup_set_prop_other by discriminate.
    simpl in Hid. exact Hid. }
  split.
  { unfold Spec.field_of. rewrite Hadded_id. reflexivity. }
  split.
  { unfold Spec.field_of. simpl. rewrite lookup_set_prop_same. reflexivity. }
  split.
  { unfold Spec.field_of at 1. simpl.
    rewrite lookup_set_prop_other by discriminate.
    rewrite lookup_set_prop_same. reflexivity. }
  unfold addTemporaryRule in Hadd0 |- *.
  destruct (structure_invalid (VObj props)) as [[|]|e]; simpl in Hadd0; try discriminate.
  cbn [rules bind]. rewrite Hid. cbn [bind].
  rewrite (find_by_id_last rule_id items _ (find_by_id_none _ _ Hfind)
             (Hadded_id _) (strict_eq_refl _ Hprim)).
  reflexivity.
Qed.

(** X5.  Removing a temporary rule that was just added gives back the
    engine as it was before the rule was added. *)
Theorem temporary_rule_round_trip (rule : value) (this this' : RuleEngine.t) :
  addTemporaryRule rule this = Normal this' ->
  MiniJS.is_object (Spec.field_of rule "id") = false ->
  RuleStore.removeTemporaryRule (Spec.field_of rule "id") this' = Normal this.
Proof.
  intros Hadd Hprim.
  destruct (addTemporaryRule_normal rule this this' Hadd)
    as [items [props [rule_id [-> [Hr [Hid [Hfind ->]]]]]]].
  assert (Hfield : Spec.field_of (VObj props) "id" = rule_id).
  { unfold Spec.field_of. rewrite Hid. reflexivity. }
  rewrite Hfield in *.
  unfold RuleStore.removeTemporaryRule, RuleStore.elements. cbn [rules bind].
  rewrite (findIndex_last rule_id items _ (find_by_id_none _ _ Hfind)).
  - cbn [bind]. rewrite splice_last. destruct this; simpl in *. rewrite Hr. reflexivity.
  - unfold RuleStore.temporary_with_id. simpl.
    rewrite !lookup_set_prop_other by discriminate. simpl in Hid.
    injection Hid as Hid. rewrite Hid. rewrite (strict_eq_refl _ Hprim).
    rewrite lookup_set_prop_same. reflexivity.
Qed.

Lemma temporary_rule_appended_once_witness :
  exists items added,
    rules Examples.default_engine = VArr items
    /\ rules Examples.with_temporary = VArr (items ++ [added])
    /\ Spec.field_of added "id" = Spec.field_of Examples.temporary_rule "id"
    /\ Spec.field_of added "temporary" = VBool true
    /\ Spec.field_of added "enabled"
       = VBool (negb (strict_eq (Spec.field_of Examples.temporary_rule "enabled")
                                (VBool false)))
    /\ addTemporaryRule Examples.temporary_rule Examples.with_temporary
       = Throw (Exn PlainError (RuleExists (Spec.field_of Examples.temporary_rule "id"))).
Proof.
  apply (temporary_rule_appended_once Examples.temporary_rule Examples.default_engine
           Examples.with_temporary).
  - vm_compute. reflexivity.
  - reflexivity.
Defined.

Lemma temporary_rule_round_trip_witness :
  RuleStore.removeTemporaryRule (Spec.field_of Examples.temporary_rule "id")
                                Examples.with_temporary
  = Normal Examples.default_engine.
Proof.
  apply (temporary_rule_round_trip Examples.temporary_rule Examples.default_engine
           Examples.with_temporary).
  - vm_compute. reflexivity.
  - reflexivity.
Defined.

Lemma splice_middle (before after : list value) (r : value) :
  RuleStore.splice (List.length before) (before ++ r :: after) = before ++ after.
Proof.
  unfold RuleStore.splice.
  rewrite firstn_app, Nat.sub_diag, firstn_all. cbn [firstn]. rewrite app_nil_r.
  f_equal.
  replace (S (List.length before)) with (List.length before + 1)%nat by lia.
  rewrite skipn_app.
  replace (List.length before + 1 - List.length before)%nat with 1%nat by lia.
  rewrite skipn_all2 by lia. reflexivity.
Qed.

Lemma findIndex_temporary (ruleId : value) (items : list value) :
  Forall (fun r => is_nullish r = false) items ->
  exists index,
    RuleStore.findIndex (RuleStore.temporary_with_id ruleId) items = Normal index
    /\ match index with
       | None => True
       | Some i =>
           exists before r after,
             items = before ++ r :: after
             /\ List.length before = i
             /\ truthy (Spec.field_of r "temporary") = true
             /\ strict_eq (Spec.field_of r "id") ruleId = true
       end.
Proof.
  induction 1 as [|r rest Hr _ [index [IH Hspec]]]; simpl.
  - exists None. split; [reflexivity | exact I].
  - unfold RuleStore.temporary_with_id at 1.
    rewrite !(getp_field_of r _ Hr). cbn [bind].
    destruct (strict_eq (Spec.field_of r "id") ruleId) eqn:Hid; cbn [bind].
    + destruct (truthy (Spec.field_of r "temporary")) eqn:Ht.
      * exists (Some 0%nat). split; [reflexivity|].
        exists [], r, rest. repeat split; assumption.
      * rewrite IH. cbn [bind]. exists (option_map S index). split; [reflexivity|].
        destruct index as [i|]; [|exact I]. simpl.
        destruct Hspec as [before [r' [after [-> [Hlen [Ht' Hid']]]]]].
        exists (r :: before), r', after. repeat split; simpl; try assumption.
        rewrite Hlen. reflexivity.
    + rewrite IH. cbn [bind]. exists (option_map S index). split; [reflexivity|].
      destruct index as [i|]; [|exact I]. simpl.
      destruct Hspec as [before [r' [after [-> [Hlen [Ht' Hid']]]]]].
      exists (r :: before), r', after. repeat split; simpl; try assumption.
      rewrite Hlen. reflexivity.
Qed.

(** X6.  [removeTemporaryRule] returns on every store of rules; it leaves
    the engine as it is, or takes out exactly one rule, which carries the
    given id and is marked [temporary].  A store without temporary rules
    is never changed by it. *)
Theorem remove_only_temporary
        (ruleId : value) (this : RuleEngine.t) (items : list value) :
  rules this = VArr items ->
  Forall (fun r => is_nullish r = false) items ->
  exists this',
    RuleStore.removeTemporaryRule ruleId this = Normal this'
    /\ (this' = this
        \/ exists before r after,
             items = before ++ r :: after
             /\ rules this' = VArr (before ++ after)
             /\ truthy (Spec.field_of r "temporary") = true
             /\ strict_eq (Spec.field_of r "id") ruleId = true)
    /\ (Forall (fun r => truthy (Spec.field_of r "temporary") = false) items ->
        this' = this).
Proof.
  intros Hr Hall.
  destruct (findIndex_temporary ruleId items Hall) as [index [Hfind Hspec]].
  unfold RuleStore.removeTemporaryRule, RuleStore.elements.
  rewrite Hr. cbn [bind]. rewrite Hfind. cbn [bind].
  destruct index as [i|].
  - destruct Hspec as [before [r [after [-> [Hlen [Ht Hid]]]]]].
    eexists. split; [reflexivity|]. split.
    + right. exists before, r, after. cbn [rules]. rewrite <- Hlen, splice_middle.
      repeat split; assumption.
    + intros Hnone. rewrite Forall_forall in Hnone.
      rewrite (Hnone r) in Ht; [discriminate|].
      apply in_or_app. right. left. reflexivity.
  - exists this. split; [reflexivity|]. split; [left; reflexivity | intros _; reflexivity].
Qed.

Lemma remove_only_temporary_witness :
  exists this',
    RuleStore.removeTemporaryRule (VStr "fingerprint_completeness") Examples.default_engine
    = Normal this'
    /\ (this' = Examples.default_engine
        \/ exists before r after,
             default_rules = before ++ r :: after
             /\ rules this' = VArr (before ++ after)
             /\ truthy (Spec.field_of r "temporary") = true
             /\ strict_eq (Spec.field_of r "id") (VStr "fingerprint_completeness") = true)
    /\ (Forall (fun r => truthy (Spec.field_of r "temporary") = false) default_rules ->
        this' = Examples.default_engine).
Proof.
  apply (remove_only_temporary (VStr "fingerprint_completeness") Examples.default_engine
           default_rules).
  - reflexivity.
  - repeat constructor.
Defined.

(** ** Further properties of the evaluation pass *)

Lemma createSafeContext_nullish (data : value) :
  is_nullish data = true -> exists e, _createSafeContext data = Throw e.
Proof. destruct data; try discriminate; intros _; eexists; reflexivity. Qed.

Lemma createSafeContext_normal (data : value) :
  is_nullish data = false -> exists context, _createSafeContext data = Normal context.
Proof.
  intros H. unfold _createSafeContext.
  rewrite !(getp_field_of data _ H). cbn [bind]. eexists. reflexivity.
Qed.

Lemma all_errors_neutral (results : list RuleResult) :
  Forall (fun result => has_error result = true) results ->
  _calculateRuleScore results = Some 50.
Proof.
  intros H.
  assert (Htotals : forall a b, rule_totals results a b = Some (a, b)).
  { induction H as [|r rest Hr _ IH]; intros a b; simpl; [reflexivity|].
    rewrite Hr. apply IH. }
  unfold _calculateRuleScore. destruct results as [|r rest]; [reflexivity|].
  rewrite Htotals. reflexivity.
Qed.

Lemma evaluate_loop_nullish
      (call_Function : string -> value -> outcome value) (data : value)
      (items : list value) :
  is_nullish data = true ->
  Forall (fun rule => is_nullish rule = false) items ->
  forall results, exists more,
    evaluate_loop call_Function data results items = Normal (results ++ more)
    /\ Forall2 (fun rule result =>
                  id result = Spec.field_of rule "id"
                  /\ name result = Spec.field_of rule "name"
                  /\ passed result = false
                  /\ RuleEngine.weight result = num 0
                  /\ RuleEngine.score result = num 0
                  /\ exists m, error result
                               = Some (FailedToEvaluate (Spec.field_of rule "id") m))
               (filter Spec.enabled items) more
    /\ Forall (fun result => has_error result = true) more.
Proof.
  intros Hnull Hall. destruct (createSafeContext_nullish data Hnull) as [e He].
  induction Hall as [|r rest Hr _ IH]; intros results; simpl.
  - exists []. rewrite app_nil_r. repeat split; constructor.
  - unfold evaluate_step, _evaluateRule. rewrite He.
    rewrite !(getp_field_of r _ Hr). cbn [bind throw_error].
    unfold Spec.enabled.
    destruct (truthy (Spec.field_of r "enabled")); cbn [negb bind].
    + destruct (IH (results ++
        [{| id := Spec.field_of r "id"; name := Spec.field_of r "name";
            passed := false; RuleEngine.weight := num 0; RuleEngine.score := num 0;
            action := VUndefined; condition := VUndefined; description := VUndefined;
            error := Some (exn_message
                             (Exn PlainError
                                  (FailedToEvaluate (Spec.field_of r "id")
                                                    (exn_message e)))) |}]))
        as [more [Hloop [Hrel Herr]]].
      eexists (_ :: more). rewrite Hloop, <- app_assoc. split; [reflexivity|].
      split.
      * constructor; [|exact Hrel]. cbn. repeat split. eexists. reflexivity.
      * constructor; [reflexivity | exact Herr].
    + apply IH.
Qed.

(** X7.  On a request that is [null] or [undefined] the pass does not
    throw: every enabled rule is reported as a result in error, not
    passed, with weight 0 and score 0, and the rule score of such a run is
    the neutral 50. *)
Theorem null_request_all_rules_error
        (call_Function : string -> value -> outcome value)
        (this : RuleEngine.t) (data : value) (items : list value) :
  is_nullish data = true ->
  rules this = VArr items ->
  Forall (fun rule => is_nullish rule = false) items ->
  exists results,
    evaluateRules call_Function this data = Normal results
    /\ Forall2 (fun rule result =>
                  id result = Spec.field_of rule "id"
                  /\ passed result = false
                  /\ RuleEngine.weight result = num 0
                  /\ RuleEngine.score result = num 0
                  /\ has_error result = true)
               (filter Spec.enabled items) results
    /\ _calculateRuleScore results = Some 50.
Proof.
  intros Hnull Hr Hall.
  destruct (evaluate_loop_nullish call_Function data items Hnull Hall [])
    as [results [Hloop [Hrel Herr]]].
  exists results. unfold evaluateRules. rewrite Hr. cbn [iterate bind].
  split; [exact Hloop|]. split; [|apply all_errors_neutral, Herr].
  clear Hloop. induction Hrel as [|rule result rs res [Hid [_ [Hp [Hw [Hs [m Hm]]]]]] _ IH].
  - constructor.
  - inversion Herr; subst. constructor; [|apply IH; assumption].
    repeat split; assumption.
Qed.

Lemma null_request_all_rules_error_witness :
  exists results,
    evaluateRules MiniJS.engine Examples.default_engine VNull = Normal results
    /\ Forall2 (fun rule result =>
                  id result = Spec.field_of rule "id"
                  /\ passed result = false
                  /\ RuleEngine.weight result = num 0
                  /\ RuleEngine.score result = num 0
                  /\ has_error result = true)
               (filter Spec.enabled default_rules) results
    /\ _calculateRuleScore results = Some 50.
Proof.
  apply (null_request_all_rules_error MiniJS.engine Examples.default_engine VNull
           default_rules).
  - reflexivity.
  - reflexivity.
  - repeat constructor.
Defined.

Lemma Forall2_weaken {A B : Type} (P Q : A -> B -> Prop) (l : list A) (l' : list B) :
  (forall a b, P a b -> Q a b) -> Forall2 P l l' -> Forall2 Q l l'.
Proof. intros HPQ H. induction H; constructor; auto. Qed.

Lemma getActiveRules_filter (items active : list value) :
  RuleEngine.getActiveRules items = Normal active ->
  Forall (fun rule => is_nullish rule = false) items
  /\ active = filter Spec.enabled items.
Proof.
  revert active. induction items as [|r rest IH]; intros active H.
  - inversion H. split; constructor.
  - change (RuleEngine.getActiveRules (r :: rest))
      with (bind (getp r "enabled") (fun enabled =>
            bind (RuleEngine.getActiveRules rest) (fun kept =>
            Normal (if truthy enabled then r :: kept else kept)))) in H.
    destruct (getp r "enabled") as [enabled|e] eqn:Hg; simpl in H; [|discriminate].
    destruct (RuleEngine.getActiveRules rest) as [kept|e] eqn:Hrest; simpl in H;
      [|discriminate].
    destruct (IH kept eq_refl) as [Hall ->].
    assert (Hr : is_nullish r = false) by (destruct r; try reflexivity; discriminate).
    split; [constructor; assumption|].
    cbn [filter]. unfold Spec.enabled at 1, Spec.field_of at 1. rewrite Hg.
    inversion H. reflexivity.
Qed.

(** X8.  The pass reports exactly one result for each rule that
    [getActiveRules] lists, in the order of the list and under the rule's
    id and name, whatever the request is; a disabled rule has no result. *)
Theorem one_result_per_active_rule
        (call_Function : string -> value -> outcome value)
        (this : RuleEngine.t) (data : value) (active : list value) :
  RuleStore.getActiveRules this = Normal active ->
  exists results,
    evaluateRules call_Function this data = Normal results
    /\ Forall2 (fun rule result =>
                  id result = Spec.field_of rule "id"
                  /\ name result = Spec.field_of rule "name")
               active results.
Proof.
  unfold RuleStore.getActiveRules, RuleStore.elements. intros H.
  destruct (rules this) as [| | | | | items |] eqn:Hr; try discriminate.
  cbn [bind] in H. destruct (getActiveRules_filter items active H) as [Hall ->].
  destruct (is_nullish data) eqn:Hnull.
  - destruct (evaluate_loop_nullish call_Function data items Hnull Hall [])
      as [results [Hloop [Hrel _]]].
    exists results. unfold evaluateRules. rewrite Hr. cbn [iterate bind].
    split; [exact Hloop|].
    revert Hrel. apply Forall2_weaken. intros rule result [Hid [Hn _]].
    split; assumption.
  - destruct (createSafeContext_normal data Hnull) as [context Hc].
    rewrite (evaluateRules_normal call_Function this data context items Hr Hc Hall).
    eexists. split; [reflexivity|]. clear H.
    induction (filter Spec.enabled items) as [|rule rs IH]; simpl;
      [constructor | constructor; [split; reflexivity | exact IH]].
Qed.

Lemma one_result_per_active_rule_witness :
  exists results,
    evaluateRules MiniJS.engine Examples.default_engine
                  (Data.to_json Examples.empty_request) = Normal results
    /\ Forall2 (fun rule result =>
                  id result = Spec.field_of rule "id"
                  /\ name result = Spec.field_of rule "name")
               default_rules results.
Proof.
  apply (one_result_per_active_rule MiniJS.engine Examples.default_engine
           (Data.to_json Examples.empty_request) default_rules).
  reflexivity.
Defined.

(** ** Further properties of the guard on dotted paths *)

Lemma guard_scan_without_dot (s : string) :
  Paths.forall_chars (fun c => negb (Ascii.eqb c "."%char)) s = true ->
  guard_scan Outside s = s
  /\ forall w, guard_scan (FirstWord w) s = w +++ s.
Proof.
  induction s as [|c rest IH]; simpl; intros H.
  - split; [reflexivity | intros w; symmetry; apply append_nil_r].
  - apply andb_prop in H. destruct H as [Hc Hrest].
    destruct (IH Hrest) as [IHo IHw]. apply negb_true_iff in Hc.
    destruct (is_word c) eqn:Hw.
    + split.
      * rewrite IHw. reflexivity.
      * intros w. rewrite IHw. unfold snoc. rewrite append_assoc. reflexivity.
    + split.
      * rewrite IHo. reflexivity.
      * intros w. rewrite Hc, IHo. reflexivity.
Qed.

(** X9.  A condition that contains no dot is not rewritten by the guard:
    the text handed to the Function constructor is the condition as the
    rule gives it, and the rule passes exactly when that text evaluates to
    a truthy value. *)
Theorem condition_without_dot_unchanged
        (call_Function : string -> value -> outcome value)
        (c : string) (context : value) :
  Paths.forall_chars (fun ch => negb (Ascii.eqb ch "."%char)) c = true ->
  guard_paths c = c
  /\ _evaluateCondition call_Function (VStr c) context
     = match call_Function (function_body c) context with
       | Normal result => truthy result
       | Throw _ => false
       end.
Proof.
  intros H. destruct (guard_scan_without_dot c H) as [Hg _].
  unfold _evaluateCondition, guard_paths. rewrite Hg. split; reflexivity.
Qed.

Lemma condition_without_dot_unchanged_witness :
  guard_paths "behavioral && facial" = "behavioral && facial"
  /\ _evaluateCondition MiniJS.engine (VStr "behavioral && facial")
                        Examples.context_without_behavioral
     = match MiniJS.engine (function_body "behavioral && facial")
                           Examples.context_without_behavioral with
       | Normal result => truthy result
       | Throw _ => false
       end.
Proof.
  apply (condition_without_dot_unchanged MiniJS.engine "behavioral && facial"
           Examples.context_without_behavioral).
  reflexivity.
Defined.

Lemma frequency_condition_run (data : Data.t) (b : Behavioral.t) (m : Metrics.t) (q : Q)
      (context : value) :
  Data.behavioral data = Some b ->
  Behavioral.metrics b = Some m ->
  Metrics.clickFrequency m = Some q ->
  _createSafeContext (Data.to_json data) = Normal context ->
  MiniJS.run (function_body
                (guard_paths "behavioral && behavioral.metrics.clickFrequency > 0.5"))
             context
  = Some (Normal (VBool (Qlt_bool 0 q))).
Proof.
  intros Hb Hm Hq Hc.
  destruct data as [fp beh fa sid ts]. simpl in Hb. subst beh.
  destruct b as [du te me st]. simpl in Hm. subst me.
  destruct m as [cf sf kf md]. simpl in Hq. subst cf.
  destruct fp, fa, du, te, st; simpl in Hc; inversion Hc; subst context; clear Hc.
  all: destruct q as [n d]; vm_compute; reflexivity.
Qed.

(** X10.  The default rule [high_behavioral_frequency] is written with the
    threshold 0.5, and the guard rewrites that literal like a dotted path,
    to an expression whose value is [null].  On every request that carries
    a click frequency the rule therefore passes exactly when the frequency
    is above 0, not above 0.5. *)
Theorem frequency_rule_fires_above_zero
        (data : Data.t) (b : Behavioral.t) (m : Metrics.t) (q : Q) :
  Data.behavioral data = Some b ->
  Behavioral.metrics b = Some m ->
  Metrics.clickFrequency m = Some q ->
  exists rule context result,
    In rule default_rules
    /\ Spec.field_of rule "id" = VStr "high_behavioral_frequency"
    /\ Spec.field_of rule "condition"
       = VStr "behavioral && behavioral.metrics.clickFrequency > 0.5"
    /\ _createSafeContext (Data.to_json data) = Normal context
    /\ MiniJS.run (function_body
                     (guard_paths "behavioral && behavioral.metrics.clickFrequency > 0.5"))
                  context
       = Some (Normal (VBool (Qlt_bool 0 q)))
    /\ _evaluateRule MiniJS.engine rule (Data.to_json data) = Normal result
    /\ passed result = Qlt_bool 0 q
    /\ RuleEngine.score result = (if Qlt_bool 0 q then num (-10) else num 0).
Proof.
  intros Hb Hm Hq.
  destruct (createSafeContext_normal (Data.to_json data) eq_refl) as [context Hc].
  pose proof (frequency_condition_run data b m q context Hb Hm Hq Hc) as Hrun.
  eexists (nth 6 default_rules VUndefined), context, _.
  split; [simpl; tauto|]. split; [reflexivity|]. split; [reflexivity|].
  split; [exact Hc|]. split; [exact Hrun|].
  split; [apply (evaluateRule_normal MiniJS.engine _ _ context Hc); reflexivity|].
  assert (Hpassed :
            _evaluateCondition MiniJS.engine
              (VStr "behavioral && behavioral.metrics.clickFrequency > 0.5") context
            = Qlt_bool 0 q).
  { unfold _evaluateCondition, MiniJS.engine. rewrite Hrun. reflexivity. }
  unfold Spec.result_of. cbn [passed RuleEngine.score].
  change (Spec.field_of (nth 6 default_rules VUndefined) "condition")
    with (VStr "behavioral && behavioral.metrics.clickFrequency > 0.5").
  rewrite Hpassed. split; reflexivity.
Qed.

Lemma frequency_rule_fires_above_zero_witness :
  exists rule context result,
    In rule default_rules
    /\ Spec.field_of rule "id" = VStr "high_behavioral_frequency"
    /\ Spec.field_of rule "condition"
       = VStr "behavioral && behavioral.metrics.clickFrequency > 0.5"
    /\ _createSafeContext (Data.to_json (Route.testData "test_0" 0 0 0)) = Normal context
    /\ MiniJS.run (function_body
                     (guard_paths "behavioral && behavioral.metrics.clickFrequency > 0.5"))
                  context
       = Some (Normal (VBool (Qlt_bool 0 0.1)))
    /\ _evaluateRule MiniJS.engine rule (Data.to_json (Route.testData "test_0" 0 0 0))
       = Normal result
    /\ passed result = Qlt_bool 0 0.1
    /\ RuleEngine.score result = (if Qlt_bool 0 0.1 then num (-10) else num 0).
Proof.
  eapply (frequency_rule_fires_above_zero (Route.testData "test_0" 0 0 0)); reflexivity.
Defined.

(** ** Further properties of the scoring service *)

Lemma clamp_upper (x hi : Q) : 0 <= hi -> x <= hi -> clamp x <= hi.
Proof.
  intros H0 H. unfold clamp. apply Q.max_lub; [exact H0|].
  eapply Qle_trans; [apply Q.le_min_r | exact H].
Qed.
Lemma clamp_lower (x lo : Q) : lo <= 100 -> lo <= x -> lo <= clamp x.
Proof.
  intros H0 H. unfold clamp. eapply Qle_trans; [|apply Q.le_max_r].
  apply Q.min_glb; assumption.
Qed.






Lemma completeness_range (f : Fingerprint.t) :
  let x := inject_Z (Z.of_nat (List.length
             (filter (fun field => present_and_not (field f) "unknown") requiredFields)))
           / inject_Z (Z.of_nat (List.length requiredFields)) in
  0 <= x /\ x <= 1.
Proof.
  cbv zeta.
  match goal with |- context [List.length (filter ?p ?l)] =>
    pose proof (filter_length_le p l) as Hle; set (c := List.length (filter p l)) in *
  end.
  change (List.length requiredFields) with 8%nat in *.
  unfold Qdiv. change (/ inject_Z (Z.of_nat 8)) with (1 # 8).
  assert (H0 : 0 <= inject_Z (Z.of_nat c)).
  { change 0 with (inject_Z 0). rewrite <- Zle_Qle. lia. }
  assert (H8 : inject_Z (Z.of_nat c) <= 8).
  { change 8 with (inject_Z 8). rewrite <- Zle_Qle. lia. }
  split; lra.
Qed.


Lemma existsb_In_true {A : Type} (p : A -> bool) (l : list A) (a : A) :
  In a l -> p a = true -> existsb p l = true.
Proof. intros Hin Hp. apply existsb_exists. exists a. split; assumption. Qed.

(** X11.  A fingerprint whose user agent contains [bot], [crawler],
    [spider] or [scraper], in any letter case, scores at most 70 whatever
    else it carries, and never less than 20. *)
Theorem suspicious_user_agent_caps_fingerprint
        (f : Fingerprint.t) (ua pattern : string) :
  Fingerprint.userAgent f = Some ua ->
  In pattern suspiciousPatterns ->
  MiniJS.includes (toLowerCase ua) pattern = true ->
  20 <= _calculateFingerprintScore (Some f)
  /\ _calculateFingerprintScore (Some f) <= 70.
Proof.
  intros Hua Hin Hinc.
  assert (Hsusp : negb (ua =? EmptyString)
                  && existsb (fun pattern => MiniJS.includes (toLowerCase ua) pattern)
                             suspiciousPatterns = true).
  { apply andb_true_intro. split.
    - destruct ua; [|reflexivity].
      simpl in Hin. destruct Hin as [<-|[<-|[<-|[<-|[]]]]]; discriminate Hinc.
    - apply (existsb_In_true _ _ pattern Hin Hinc). }
  pose proof (completeness_range f) as Hx. cbv zeta in Hx.
  unfold _calculateFingerprintScore. cbv zeta. rewrite Hua, Hsusp.
  match type of Hx with 0 <= ?t /\ _ => set (x := t) in * end.
  destruct Hx as [Hx0 Hx1].
  split; [apply clamp_lower; [discriminate|] | apply clamp_upper; [discriminate|]].
  all: destruct (Fingerprint.canvasFingerprint f), (Fingerprint.fonts f);
    repeat match goal with |- context [if ?c then _ else _] => destruct c end; lra.
Qed.



Lemma suspicious_user_agent_caps_fingerprint_witness :
  20 <= _calculateFingerprintScore
          (Some {| Fingerprint.userAgent := Some "Mozilla/5.0 (compatible; Googlebot/2.1)";
                   Fingerprint.language := Some "en-US";
                   Fingerprint.platform := Some "Linux";
                   Fingerprint.screenResolution := Some "1920x1080";
                   Fingerprint.timezone := Some "UTC";
                   Fingerprint.canvasFingerprint := Some "canvas";
                   Fingerprint.webglFingerprint := Some "webgl";
                   Fingerprint.audioFingerprint := Some "audio";
                   Fingerprint.fonts := Some ["a"; "b"; "c"; "d"; "e"; "f"];
                   Fingerprint.timestamp := Some 1000 |})
  /\ _calculateFingerprintScore
          (Some {| Fingerprint.userAgent := Some "Mozilla/5.0 (compatible; Googlebot/2.1)";
                   Fingerprint.language := Some "en-US";
                   Fingerprint.platform := Some "Linux";
                   Fingerprint.screenResolution := Some "1920x1080";
                   Fingerprint.timezone := Some "UTC";
                   Fingerprint.canvasFingerprint := Some "canvas";
                   Fingerprint.webglFingerprint := Some "webgl";
                   Fingerprint.audioFingerprint := Some "audio";
                   Fingerprint.fonts := Some ["a"; "b"; "c"; "d"; "e"; "f"];
                   Fingerprint.timestamp := Some 1000 |}) <= 70.
Proof.
  apply (suspicious_user_agent_caps_fingerprint _
           "Mozilla/5.0 (compatible; Googlebot/2.1)" "bot").
  - reflexivity.
  - simpl. tauto.
  - vm_compute. reflexivity.
Defined.

Lemma rule_totals_without_error (results : list RuleResult) :
  forall a b, rule_totals (Spec.without_error results) a b = rule_totals results a b.
Proof.
  induction results as [|r rest IH]; intros a b; [reflexivity|].
  unfold Spec.without_error in *. cbn [filter rule_totals].
  destruct (has_error r) eqn:Hr; cbn [negb].
  - apply IH.
  - cbn [rule_totals]. rewrite Hr.
    destruct (RuleEngine.score r); try reflexivity.
    destruct (RuleEngine.weight r); try reflexivity. apply IH.
Qed.

(** X13.  Results in error never influence the rule score: the score of a
    list of results is the score of the list without its results in
    error, and a list that holds only results in error scores like the
    empty list. *)
Theorem errors_do_not_count (results : list RuleResult) :
  _calculateRuleScore results = _calculateRuleScore (Spec.without_error results).
Proof.
  unfold _calculateRuleScore.
  destruct results as [|r rest]; [reflexivity|].
  rewrite <- (rule_totals_without_error (r :: rest) 0 0).
  destruct (Spec.without_error (r :: rest)) as [|r' rest'] eqn:Hw; reflexivity.
Qed.

Lemma sum_scores_nonnegative (results : list RuleResult) :
  Forall (fun result => has_error result = false ->
                        0 <= Spec.number_of (RuleEngine.score result)) results ->
  0 <= Spec.sum_scores results.
Proof.
  unfold Spec.sum_scores, Spec.without_error.
  induction 1 as [|r rest Hr _ IH]; cbn [filter map Spec.sum fold_right]; [discriminate|].
  destruct (has_error r); cbn [negb]; [exact IH|].
  cbn [map Spec.sum fold_right]. specialize (Hr eq_refl). unfold Spec.sum in IH. lra.
Qed.


Lemma sum_abs_weights_nonnegative (results : list RuleResult) :
  0 <= Spec.sum_abs_weights results.
Proof.
  unfold Spec.sum_abs_weights.
  induction (Spec.without_error results) as [|r rest IH];
    cbn [map Spec.sum fold_right]; [discriminate|].
  pose proof (Qabs_nonneg (Spec.number_of (RuleEngine.weight r))).
  unfold Spec.sum in IH. lra.
Qed.

Lemma nonnegative_scores_at_least_50 (results : list RuleResult) :
  Forall (fun result => has_error result = false -> Spec.numeric result) results ->
  exists q,
    _calculateRuleScore results = Some q
    /\ (Forall (fun result => has_error result = false ->
                              0 <= Spec.number_of (RuleEngine.score result)) results ->
        50 <= q).
Proof.
  intros Hnum. unfold _calculateRuleScore.
  destruct results as [|r rest].
  { exists 50. split; [reflexivity | intros _; discriminate]. }
  destruct (rule_totals_sums (r :: rest) Hnum 0 0) as [s [w [Ht [Hs Hw]]]].
  rewrite Ht. destruct (Qeq_bool w 0) eqn:Hz.
  { exists 50. split; [reflexivity | intros _; discriminate]. }
  eexists. split; [reflexivity|].
  pose proof (sum_abs_weights_nonnegative (r :: rest)) as Hw0.
  assert (Hwpos : 0 < w).
  { apply Qeq_bool_neq in Hz. destruct (Qlt_le_dec 0 w) as [Hlt|Hle]; [exact Hlt|].
    exfalso. apply Hz. lra. }
  intros Hpos. pose proof (sum_scores_nonnegative (r :: rest) Hpos) as Hs0.
  apply clamp_lower; [discriminate|].
  assert (Hd : 0 <= s / w) by (apply Qle_shift_div_l; [exact Hwpos | lra]).
  set (d := s / w) in *. lra.
Qed.



(** ** Further properties of the decision *)

Lemma prop_assign_same (k : string) (x : Q) (o : number_object) :
  prop k (assign k x o) = Some x.
Proof.
  induction o as [|[k' x'] rest IH]; simpl.
  - rewrite String.eqb_refl. reflexivity.
  - destruct (k' =? k) eqn:Hk; simpl.
    + rewrite String.eqb_refl. reflexivity.
    + rewrite Hk. exact IH.
Qed.


Lemma at_least_monotone (s1 s2 : Q) (threshold : option Q) :
  s1 <= s2 -> at_least s1 threshold = true -> at_least s2 threshold = true.
Proof.
  destruct threshold as [x|]; simpl; [|discriminate].
  intros Hle H. apply Qle_bool_iff in H. apply Qle_bool_iff. lra.
Qed.

(** X15.  A higher score never gets a worse decision, whatever thresholds
    are installed: from [s1 <= s2], [allow] for [s1] gives [allow] for
    [s2], [review] for [s1] gives [review] or [allow] for [s2], and
    [deny] for [s2] gives [deny] for [s1]. *)
Theorem decision_monotone_in_score (this : ScoringService.t) (s1 s2 : Q) :
  s1 <= s2 ->
  (getDecision this s1 = DECISION_TYPES.ALLOW -> getDecision this s2 = DECISION_TYPES.ALLOW)
  /\ (getDecision this s1 = DECISION_TYPES.REVIEW ->
      getDecision this s2 <> DECISION_TYPES.DENY)
  /\ (getDecision this s2 = DECISION_TYPES.DENY -> getDecision this s1 = DECISION_TYPES.DENY).
Proof.
  intros Hle. unfold getDecision.
  pose proof (at_least_monotone s1 s2 (prop "allow" (ScoringService.thresholds this)) Hle)
    as Ha.
  pose proof (at_least_monotone s1 s2 (prop "review" (ScoringService.thresholds this)) Hle)
    as Hr.
  destruct (at_least s1 (prop "allow" (ScoringService.thresholds this)));
    destruct (at_least s1 (prop "review" (ScoringService.thresholds this)));
    try rewrite (Ha eq_refl); try rewrite (Hr eq_refl);
    destruct (at_least s2 (prop "allow" (ScoringService.thresholds this)));
    destruct (at_least s2 (prop "review" (ScoringService.thresholds this)));
    repeat split; intros H; try reflexivity; try discriminate H;
    try (specialize (Ha eq_refl); discriminate Ha);
    try (specialize (Hr eq_refl); discriminate Hr);
    try (intros H'; discriminate H').
Qed.

Lemma decision_monotone_in_score_witness :
  (getDecision Examples.scenario_service 60 = DECISION_TYPES.ALLOW ->
   getDecision Examples.scenario_service 85 = DECISION_TYPES.ALLOW)
  /\ (getDecision Examples.scenario_service 60 = DECISION_TYPES.REVIEW ->
      getDecision Examples.scenario_service 85 <> DECISION_TYPES.DENY)
  /\ (getDecision Examples.scenario_service 85 = DECISION_TYPES.DENY ->
      getDecision Examples.scenario_service 60 = DECISION_TYPES.DENY).
Proof.
  apply (decision_monotone_in_score Examples.scenario_service 60 85).
  discriminate.
Defined.

(** X16.  [updateThresholds] accepts thresholds in any order.  Where the
    [allow] threshold is not above the [review] threshold no score is
    ever answered with [review]: every score at or above [allow] is
    allowed and every other score is denied. *)
Theorem inverted_thresholds_never_review
        (this : ScoringService.t) (allow review deny : Q) (s : Q) :
  allow <= review ->
  getDecision (updateThresholds [("allow", allow); ("review", review); ("deny", deny)] this)
              s
  <> DECISION_TYPES.REVIEW
  /\ (getDecision (updateThresholds [("allow", allow); ("review", review); ("deny", deny)]
                                    this) s
      = DECISION_TYPES.ALLOW <-> allow <= s).
Proof.
  intros Hinv.
  set (updated := updateThresholds [("allow", allow); ("review", review); ("deny", deny)]
                                   this).
  assert (Ha : prop "allow" (ScoringService.thresholds updated) = Some allow).
  { subst updated. unfold updateThresholds, merge. cbn [ScoringService.thresholds fold_left].
    rewrite !prop_assign_other by discriminate. apply prop_assign_same. }
  assert (Hr : prop "review" (ScoringService.thresholds updated) = Some review).
  { subst updated. unfold updateThresholds, merge. cbn [ScoringService.thresholds fold_left].
    rewrite !prop_assign_other by discriminate. apply prop_assign_same. }
  unfold getDecision. rewrite Ha, Hr. cbn [at_least].
  destruct (Qle_bool allow s) eqn:Has.
  - split; [discriminate|]. split; [intros _; apply Qle_bool_iff, Has | reflexivity].
  - apply Qle_bool_false in Has.
    assert (Hrs : Qle_bool review s = false) by (apply Qle_bool_false; lra).
    rewrite Hrs. split; [discriminate|].
    split; [discriminate | intros H; exfalso; lra].
Qed.

Lemma inverted_thresholds_never_review_witness :
  getDecision (updateThresholds [("allow", 50); ("review", 80); ("deny", 0)]
                                Examples.scenario_service) 60
  <> DECISION_TYPES.REVIEW
  /\ (getDecision (updateThresholds [("allow", 50); ("review", 80); ("deny", 0)]
                                    Examples.scenario_service) 60
      = DECISION_TYPES.ALLOW <-> 50 <= 60).
Proof.
  apply (inverted_thresholds_never_review Examples.scenario_service 50 80 0 60).
  discriminate.
Defined.

Lemma prop_absent (k : string) (o : number_object) :
  ~ In k (map fst o) -> prop k o = None.
Proof.
  induction o as [|[k' x] rest IH]; simpl; intros H; [reflexivity|].
  destruct (k' =? k) eqn:Hk.
  - apply String.eqb_eq in Hk. exfalso. apply H. left. exact Hk.
  - apply IH. intros Hin. apply H. right. exact Hin.
Qed.

Lemma prop_merge (k : string) (b : number_object) :
  NoDup (map fst b) ->
  forall a,
    prop k (merge a b)
    = match prop k b with
      | Some x => Some x
      | None => prop k a
      end.
Proof.
  induction b as [|[k' x] rest IH]; intros Hnd a; [reflexivity|].
  inversion Hnd as [|? ? Hnotin Hrest]; subst.
  change (merge a ((k', x) :: rest)) with (merge (assign k' x a) rest).
  cbn [prop]. destruct (k' =? k) eqn:Hk.
  - apply String.eqb_eq in Hk. subst k'.
    rewrite (prop_merge_none k rest _ (prop_absent k rest Hnotin)).
    apply prop_assign_same.
  - rewrite (IH Hrest). rewrite prop_assign_other; [reflexivity|].
    apply String.eqb_neq. exact Hk.
Qed.

(** X17.  [updateThresholds] replaces exactly the thresholds it is given:
    afterwards a key of the new thresholds reads its new value and every
    other key reads what it read before. *)
Theorem updated_thresholds_lookup
        (newThresholds : number_object) (this : ScoringService.t) (k : string) :
  NoDup (map fst newThresholds) ->
  prop k (getThresholds (updateThresholds newThresholds this))
  = match prop k newThresholds with
    | Some x => Some x
    | None => prop k (getThresholds this)
    end.
Proof.
  intros Hnd. unfold getThresholds, updateThresholds. cbn [ScoringService.thresholds].
  apply prop_merge, Hnd.
Qed.

Lemma updated_thresholds_lookup_witness :
  prop "review" (getThresholds (updateThresholds [("allow", 90)] Examples.scenario_service))
  = match prop "review" [("allow", 90)] with
    | Some x => Some x
    | None => prop "review" (getThresholds Examples.scenario_service)
    end.
Proof.
  apply (updated_thresholds_lookup [("allow", 90)] Examples.scenario_service "review").
  repeat constructor. simpl. tauto.
Defined.

(** ** Statistics of the rule store *)

Lemma validated_rule_fields (rule : value) :
  validate_rule rule = Normal tt ->
  is_nullish rule = false
  /\ (exists w, Spec.field_of rule "weight" = VNum w /\ Qeq_bool w 0 = false)
  /\ (Spec.field_of rule "action" = VStr "allow"
      \/ Spec.field_of rule "action" = VStr "review"
      \/ Spec.field_of rule "action" = VStr "deny").
Proof.
  unfold validate_rule, structure_invalid, or_else, falsy_prop, throw_error,
    Spec.field_of.
  destruct rule; simpl; intros H; try discriminate.
  split; [reflexivity|].
  repeat match type of H with
         | context [if ?b then _ else _] => destruct b eqn:?; simpl in H
         end; try discriminate.
  split.
  - match goal with
    | E : negb (typeof_number ?w) = false, T : negb (truthy ?w) = false |- _ =>
        let v := fresh "v" in
        remember w as v eqn:Hv; clear Hv; destruct v; try discriminate E;
        eexists; split; [reflexivity|];
        simpl in T; apply negb_false_iff in T; apply negb_true_iff in T; exact T
    end.
  - match goal with
    | E : negb (action_listed ?a) = false |- _ =>
        let v := fresh "v" in
        remember a as v eqn:Hv; clear Hv;
        apply negb_false_iff in E; unfold action_listed in E;
        destruct v as [| | | | s | |]; try (simpl in E; discriminate E);
        cbn [existsb strict_eq] in E;
        destruct (String.eqb_spec "allow" s) as [<-|_]; [left; reflexivity|];
        destruct (String.eqb_spec "review" s) as [<-|_]; [right; left; reflexivity|];
        destruct (String.eqb_spec "deny" s) as [<-|_]; [right; right; reflexivity|];
        discriminate E
    end.
Qed.

Lemma filter_by_normal (p : value -> outcome bool) (q : value -> bool)
      (items : list value) :
  Forall (fun r => p r = Normal (q r)) items ->
  RuleStore.filter_by p items = Normal (filter q items).
Proof.
  induction 1 as [|r rest Hr _ IH]; simpl; [reflexivity|].
  rewrite Hr, IH. reflexivity.
Qed.

Lemma count_by_normal (p : value -> option (outcome bool)) (q : value -> bool)
      (items : list value) :
  Forall (fun r => p r = Some (Normal (q r))) items ->
  RuleStore.count_by p items = Some (Normal (List.length (filter q items))).
Proof.
  induction 1 as [|r rest Hr _ IH]; simpl; [reflexivity|].
  rewrite Hr, IH. simpl. destruct (q r); reflexivity.
Qed.

Lemma getActiveRules_normal (items : list value) :
  Forall (fun rule => is_nullish rule = false) items ->
  RuleEngine.getActiveRules items = Normal (filter Spec.enabled items).
Proof.
  induction 1 as [|r rest Hr _ IH]; [reflexivity|].
  change (RuleEngine.getActiveRules (r :: rest))
    with (bind (getp r "enabled") (fun enabled =>
          bind (RuleEngine.getActiveRules rest) (fun kept =>
          Normal (if truthy enabled then r :: kept else kept)))).
  rewrite (getp_field_of r _ Hr), IH. reflexivity.
Qed.

Lemma action_partition (items : list value) :
  Forall (fun rule => validate_rule rule = Normal tt) items ->
  (List.length (filter (fun r => strict_eq (Spec.field_of r "action") (VStr "allow")
                                 && Spec.enabled r) items)
   + List.length (filter (fun r => strict_eq (Spec.field_of r "action") (VStr "review")
                                   && Spec.enabled r) items)
   + List.length (filter (fun r => strict_eq (Spec.field_of r "action") (VStr "deny")
                                   && Spec.enabled r) items)
   = List.length (filter Spec.enabled items))%nat.
Proof.
  induction 1 as [|r rest Hr _ IH]; [reflexivity|].
  destruct (validated_rule_fields r Hr) as [_ [_ Haction]].
  cbn [filter].
  destruct Haction as [-> | [-> | ->]]; destruct (Spec.enabled r); simpl; lia.
Qed.

Lemma weight_partition (items : list value) :
  Forall (fun rule => validate_rule rule = Normal tt) items ->
  (List.length (filter (fun r => Qlt_bool 0 (Spec.number_of (Spec.field_of r "weight")))
                       items)
   + List.length (filter (fun r => Qlt_bool (Spec.number_of (Spec.field_of r "weight")) 0)
                         items)
   = List.length items
   /\ List.length (filter (fun r => Qeq_bool (Spec.number_of (Spec.field_of r "weight")) 0)
                          items) = 0)%nat.
Proof.
  induction 1 as [|r rest Hr _ [IH1 IH2]]; [split; reflexivity|].
  destruct (validated_rule_fields r Hr) as [_ [[w [Hw Hz]] _]].
  cbn [filter]. rewrite Hw. cbn [Spec.number_of]. rewrite Hz.
  split; [|exact IH2].
  apply Qeq_bool_neq in Hz.
  destruct (Qlt_bool 0 w) eqn:H1; destruct (Qlt_bool w 0) eqn:H2; cbn [List.length];
    try lia; unfold Qlt_bool in H1, H2.
  - exfalso. apply negb_true_iff in H1, H2.
    apply Qle_bool_false in H1. apply Qle_bool_false in H2. lra.
  - exfalso. apply negb_false_iff in H1, H2.
    apply Qle_bool_iff in H1. apply Qle_bool_iff in H2. apply Hz. lra.
Qed.

Lemma getStats_validated (this : RuleEngine.t) (items : list value) :
  rules this = VArr items ->
  Forall (fun rule => validate_rule rule = Normal tt) items ->
  exists stats,
    RuleStore.getStats this = Some (Normal stats)
    /\ RuleStore.Stats.total stats = List.length items
    /\ RuleStore.Stats.active stats = List.length (filter Spec.enabled items)
    /\ (RuleStore.Stats.active stats
        = RuleStore.ByAction.allow (RuleStore.Stats.byAction stats)
          + RuleStore.ByAction.review (RuleStore.Stats.byAction stats)
          + RuleStore.ByAction.deny (RuleStore.Stats.byAction stats))%nat
    /\ (RuleStore.Stats.active stats
        = RuleStore.ByWeight.positive (RuleStore.Stats.byWeight stats)
          + RuleStore.ByWeight.negative (RuleStore.Stats.byWeight stats))%nat
    /\ RuleStore.ByWeight.neutral (RuleStore.Stats.byWeight stats) = 0%nat
    /\ RuleStore.Stats.lastLoaded stats = lastLoaded this.
Proof.
  intros Hr Hvalid.
  assert (Hobjects : Forall (fun rule => is_nullish rule = false) items).
  { eapply Forall_impl; [|exact Hvalid].
    intros rule Hrule. apply (validated_rule_fields rule Hrule). }
  assert (Hactive : Forall (fun rule => validate_rule rule = Normal tt)
                           (filter Spec.enabled items)).
  { apply Forall_forall. intros r Hin. apply filter_In in Hin.
    rewrite Forall_forall in Hvalid. apply Hvalid, Hin. }
  assert (Haction : forall a,
             RuleStore.getRulesByAction (VStr a) this
             = Normal (filter (fun r => strict_eq (Spec.field_of r "action") (VStr a)
                                        && Spec.enabled r) items)).
  { intros a. unfold RuleStore.getRulesByAction, RuleStore.elements. rewrite Hr.
    cbn [bind]. apply filter_by_normal.
    eapply Forall_impl; [|exact Hobjects]. intros r Hn.
    unfold RuleStore.enabled_with_action. rewrite !(getp_field_of r _ Hn). cbn [bind].
    unfold Spec.enabled.
    destruct (strict_eq (Spec.field_of r "action") (VStr a)); reflexivity. }
  assert (Hweight : forall op q,
             (forall w, MiniJS.compare op (VNum w) (num 0) = Some (q w)) ->
             RuleStore.count_by (RuleStore.weight_against_zero op)
                                (filter Spec.enabled items)
             = Some (Normal (List.length
                  (filter (fun r => q (Spec.number_of (Spec.field_of r "weight")))
                          (filter Spec.enabled items))))).
  { intros op q Hq. apply count_by_normal.
    eapply Forall_impl; [|exact Hactive]. intros r Hv.
    destruct (validated_rule_fields r Hv) as [Hn [[w [Hw _]] _]].
    unfold RuleStore.weight_against_zero. rewrite (getp_field_of r _ Hn), Hw.
    rewrite Hq. reflexivity. }
  unfold RuleStore.getStats, RuleStore.lift, RuleStore.getActiveRules.
  unfold RuleStore.elements at 1 2. rewrite Hr. cbn [bind MiniJS.and_then].
  rewrite (getActiveRules_normal items Hobjects). cbn [MiniJS.and_then].
  rewrite !Haction. cbn [MiniJS.and_then].
  rewrite (Hweight MiniJS.Gt (fun w => Qlt_bool 0 w)) by reflexivity.
  cbn [MiniJS.and_then].
  rewrite (Hweight MiniJS.Lt (fun w => Qlt_bool w 0)) by reflexivity.
  cbn [MiniJS.and_then].
  rewrite (Hweight MiniJS.StrictEq (fun w => Qeq_bool w 0)) by reflexivity.
  cbn [MiniJS.and_then].
  eexists. split; [reflexivity|].
  cbn [RuleStore.Stats.total RuleStore.Stats.active RuleStore.Stats.byAction
       RuleStore.Stats.byWeight RuleStore.Stats.lastLoaded RuleStore.ByAction.allow
       RuleStore.ByAction.review RuleStore.ByAction.deny RuleStore.ByWeight.positive
       RuleStore.ByWeight.negative RuleStore.ByWeight.neutral].
  destruct (weight_partition _ Hactive) as [Hw1 Hw2].
  repeat split; try reflexivity.
  - symmetry. apply action_partition, Hvalid.
  - symmetry. exact Hw1.
  - exact Hw2.
Qed.

(** X18.  On the store that any [loadRules] leaves, [getStats] returns:
    it counts every active rule under exactly one of the three actions
    and as either positive or negative, and it never reports a neutral
    rule, since the store admits no rule of weight 0. *)
Theorem stats_of_loaded_store (src : config_source) (now : string) (this : RuleEngine.t) :
  exists stats,
    RuleStore.getStats (loadRules src now this) = Some (Normal stats)
    /\ (RuleStore.Stats.active stats <= RuleStore.Stats.total stats)%nat
    /\ (RuleStore.Stats.active stats
        = RuleStore.ByAction.allow (RuleStore.Stats.byAction stats)
          + RuleStore.ByAction.review (RuleStore.Stats.byAction stats)
          + RuleStore.ByAction.deny (RuleStore.Stats.byAction stats))%nat
    /\ (RuleStore.Stats.active stats
        = RuleStore.ByWeight.positive (RuleStore.Stats.byWeight stats)
          + RuleStore.ByWeight.negative (RuleStore.Stats.byWeight stats))%nat
    /\ RuleStore.ByWeight.neutral (RuleStore.Stats.byWeight stats) = 0%nat.
Proof.
  destruct (loadRules_store_valid src now this) as [items [Hr Hvalid]].
  destruct (getStats_validated _ items Hr Hvalid)
    as [stats [Hs [Ht [Ha [Hact [Hw [Hn _]]]]]]].
  exists stats. split; [exact Hs|]. split.
  - rewrite Ht, Ha. apply filter_length_le.
  - repeat split; assumption.
Qed.

(** ** Reasons *)

Lemma reasons_membership (s : scores) (finalScore : Q) :
  (In "Multiple security rules failed" (_generateReasons s finalScore)
   <-> Qlt_bool (rule s) 40 = true)
  /\ (In "Facial verification completed successfully" (_generateReasons s finalScore)
      <-> Qle_bool 80 (facial s) = true).
Proof.
  unfold _generateReasons.
  destruct (Qle_bool 80 finalScore), (Qle_bool 60 finalScore), (Qle_bool 40 finalScore),
    (Qlt_bool (rule s) 40), (Qlt_bool (behavioral s) 40), (Qlt_bool (fingerprint s) 40),
    (Qle_bool 80 (facial s)), (Qlt_bool (dataQuality s) 40);
    cbn [app In]; split; split; intros H; try reflexivity; try discriminate H;
    try tauto;
    repeat match type of H with
           | _ \/ _ => destruct H as [H|H]
           | False => destruct H
           | _ = _ => discriminate H
           end.
Qed.

(** X19.  The reasons report a successful facial verification exactly
    when the request carries a facial image and no facial error, and
    they never say that multiple security rules failed when no counted
    rule result has a negative score, however many rules did not pass. *)
Theorem reasons_follow_sections
        (now : Q) (data : Data.t) (results : list RuleResult) :
  Forall (fun result => has_error result = false -> Spec.numeric result) results ->
  exists scored,
    calculateScore now data results = Some scored
    /\ (In "Facial verification completed successfully" (reasons scored)
        <-> exists f, Data.facial data = Some f
                      /\ present (Facial.imageData f) = true
                      /\ present (Facial.error f) = false)
    /\ (Forall (fun result => has_error result = false ->
                              0 <= Spec.number_of (RuleEngine.score result)) results ->
        ~ In "Multiple security rules failed" (reasons scored)).
Proof.
  intros Hnum.
  destruct (nonnegative_scores_at_least_50 results Hnum) as [q [Hq Hlow]].
  unfold calculateScore. rewrite Hq. cbv zeta. eexists. split; [reflexivity|].
  cbn [reasons].
  match goal with |- context [_generateReasons ?s ?f] =>
    destruct (reasons_membership s f) as [Hrule Hfacial]
  end.
  cbn [rule facial] in Hrule, Hfacial.
  split.
  - rewrite Hfacial. unfold _calculateFacialScore.
    destruct (Data.facial data) as [f|].
    + destruct (present (Facial.error f)) eqn:He.
      * split; [discriminate|]. intros [f' [Hf [_ He']]].
        inversion Hf; subst. rewrite He in He'. discriminate.
      * destruct (present (Facial.imageData f)) eqn:Hi.
        -- split; [|reflexivity]. intros _. exists f. repeat split; assumption.
        -- split; [discriminate|]. intros [f' [Hf [Hi' _]]].
           inversion Hf; subst. rewrite Hi in Hi'. discriminate.
    + split; [discriminate|]. intros [f [Hf _]]. discriminate.
  - intros Hpos Hin. apply Hrule in Hin. specialize (Hlow Hpos).
    unfold Qlt_bool in Hin. apply negb_true_iff in Hin.
    apply Qle_bool_false in Hin. lra.
Qed.

Lemma reasons_follow_sections_witness :
  exists scored,
    calculateScore 1000 Examples.empty_request
                   [Examples.failing "rule1" 20; Examples.failing "rule2" 10]
    = Some scored
    /\ (In "Facial verification completed successfully" (reasons scored)
        <-> exists f, Data.facial Examples.empty_request = Some f
                      /\ present (Facial.imageData f) = true
                      /\ present (Facial.error f) = false)
    /\ (Forall (fun result => has_error result = false ->
                              0 <= Spec.number_of (RuleEngine.score result))
               [Examples.failing "rule1" 20; Examples.failing "rule2" 10] ->
        ~ In "Multiple security rules failed" (reasons scored)).
Proof.
  apply (reasons_follow_sections 1000 Examples.empty_request
           [Examples.failing "rule1" 20; Examples.failing "rule2" 10]).
  repeat constructor.
Defined.

(** ** The verification route on the services of the server *)







(** ** Temporary rules and the rest of the engine *)

Lemma loadRules_rules_independent
      (src : config_source) (now1 now2 : string) (this1 this2 : RuleEngine.t) :
  rules (loadRules src now1 this1) = rules (loadRules src now2 this2)
  /\ (RuleEngine.thresholds this1 = RuleEngine.thresholds this2 ->
      RuleEngine.thresholds (loadRules src now1 this1)
      = RuleEngine.thresholds (loadRules src now2 this2)).
Proof.
  destruct src as [e | e | config]; try (split; reflexivity).
  unfold loadRules, loadRules_try.
  destruct (getp config "rules") as [cr | e]; [|split; reflexivity].
  destruct (getp config "thresholds") as [cth | e]; [|split; reflexivity].
  unfold _validateRules. cbn [rules].
  destruct (bind (iterate (js_or cr (VArr []))) validate_each) as [[] | e];
    cbn [rules RuleEngine.thresholds _loadDefaultRules]; split; try reflexivity.
  intros ->. reflexivity.
Qed.

(** X22.  A temporary rule does not survive a reload: the rules after
    [reloadRules] are those the source gives (or the defaults), whether
    or not a temporary rule had been added, and the thresholds are the
    same as well. *)
Theorem reload_discards_temporary_rules
        (rule : value) (this this' : RuleEngine.t)
        (src : config_source) (now : string) :
  addTemporaryRule rule this = Normal this' ->
  rules (reloadRules src now this') = rules (reloadRules src now this)
  /\ RuleEngine.thresholds (reloadRules src now this')
     = RuleEngine.thresholds (reloadRules src now this).
Proof.
  intros Hadd.
  destruct (addTemporaryRule_normal rule this this' Hadd)
    as [items [props [rule_id [_ [_ [_ [_ ->]]]]]]].
  unfold reloadRules.
  match goal with |- rules (loadRules _ _ ?a) = _ /\ _ =>
    destruct (loadRules_rules_independent src now now a this) as [Hr Ht]
  end.
  split; [exact Hr | apply Ht; reflexivity].
Qed.

Lemma reload_discards_temporary_rules_witness :
  rules (reloadRules (Parsed Examples.good_config) "2024-12-03T00:00:00.000Z"
                     Examples.with_temporary)
  = rules (reloadRules (Parsed Examples.good_config) "2024-12-03T00:00:00.000Z"
                       Examples.default_engine)
  /\ RuleEngine.thresholds
       (reloadRules (Parsed Examples.good_config) "2024-12-03T00:00:00.000Z"
                    Examples.with_temporary)
     = RuleEngine.thresholds
         (reloadRules (Parsed Examples.good_config) "2024-12-03T00:00:00.000Z"
                      Examples.default_engine).
Proof.
  apply (reload_discards_temporary_rules Examples.temporary_rule).
  vm_compute. reflexivity.
Defined.

Lemma find_by_id_objects (rule_id : value) (items : list value) :
  find_by_id rule_id items = Normal None ->
  Forall (fun r => is_nullish r = false) items.
Proof.
  intros H. eapply Forall_impl; [|apply (find_by_id_none rule_id items H)].
  intros r [v [Hg _]]. destruct r; try reflexivity; discriminate Hg.
Qed.

(** X23.  A temporary rule takes part in the next evaluation: after
    [addTemporaryRule] the pass reports what it reported before and then
    one more result, for the added rule, with its id and weight; a rule
    added with [enabled: false] adds no result. *)
Theorem temporary_rule_evaluated_last
        (call_Function : string -> value -> outcome value)
        (rule : value) (this this' : RuleEngine.t) (data : value) :
  addTemporaryRule rule this = Normal this' ->
  is_nullish data = false ->
  exists results,
    evaluateRules call_Function this data = Normal results
    /\ if strict_eq (Spec.field_of rule "enabled") (VBool false)
       then evaluateRules call_Function this' data = Normal results
       else exists result,
              evaluateRules call_Function this' data = Normal (results ++ [result])
              /\ id result = Spec.field_of rule "id"
              /\ RuleEngine.weight result = Spec.field_of rule "weight"
              /\ error result = None.
Proof.
  intros Hadd Hdata.
  destruct (addTemporaryRule_normal rule this this' Hadd)
    as [items [props [rule_id [-> [Hr [Hid [Hfind ->]]]]]]].
  destruct (createSafeContext_normal data Hdata) as [context Hc].
  pose proof (find_by_id_objects rule_id items Hfind) as Hobjects.
  rewrite (evaluateRules_normal call_Function this data context items Hr Hc Hobjects).
  eexists. split; [reflexivity|].
  match goal with |- context [VArr (items ++ [?a])] => set (added := a) end.
  assert (Hall : Forall (fun r => is_nullish r = false) (items ++ [added])).
  { apply Forall_app. split; [exact Hobjects | repeat constructor]. }
  match goal with |- context [evaluateRules _ ?engine data] =>
    rewrite (evaluateRules_normal call_Function engine data context (items ++ [added])
               eq_refl Hc Hall)
  end.
  rewrite filter_app, map_app. cbn [filter].
  assert (Henabled : Spec.enabled added
                     = negb (strict_eq (Spec.field_of (VObj props) "enabled") (VBool false))).
  { unfold Spec.enabled, Spec.field_of at 1. subst added. cbn [getp].
    rewrite lookup_set_prop_other by discriminate.
    rewrite lookup_set_prop_same. reflexivity. }
  rewrite Henabled.
  destruct (strict_eq (Spec.field_of (VObj props) "enabled") (VBool false)); cbn [negb map].
  - rewrite app_nil_r. reflexivity.
  - eexists. split; [reflexivity|].
    unfold Spec.result_of. cbn [id RuleEngine.weight error].
    unfold Spec.field_of. subst added. cbn [getp].
    rewrite !lookup_set_prop_other by discriminate.
    repeat split; reflexivity.
Qed.

Lemma temporary_rule_evaluated_last_witness :
  exists results,
    evaluateRules MiniJS.engine Examples.default_engine
                  (Data.to_json Examples.empty_request) = Normal results
    /\ if strict_eq (Spec.field_of Examples.temporary_rule "enabled") (VBool false)
       then evaluateRules MiniJS.engine Examples.with_temporary
                          (Data.to_json Examples.empty_request) = Normal results
       else exists result,
              evaluateRules MiniJS.engine Examples.with_temporary
                            (Data.to_json Examples.empty_request)
              = Normal (results ++ [result])
              /\ id result = Spec.field_of Examples.temporary_rule "id"
              /\ RuleEngine.weight result = Spec.field_of Examples.temporary_rule "weight"
              /\ error result = None.
Proof.
  apply (temporary_rule_evaluated_last MiniJS.engine Examples.temporary_rule
           Examples.default_engine Examples.with_temporary
           (Data.to_json Examples.empty_request)).
  - vm_compute. reflexivity.
  - reflexivity.
Defined.

Lemma validate_each_last_throws (items : list value) (added : value) :
  (exists e, validate_rule added = Throw e) ->
  exists e, validate_each (items ++ [added]) = Throw e.
Proof.
  intros [e He]. induction items as [|r rest [e' IH]]; simpl.
  - rewrite He. exists e. reflexivity.
  - destruct (validate_rule r) as [[]|e'']; simpl; eexists; [exact IH | reflexivity].
Qed.

(** X24.  [addTemporaryRule] checks less than [_validateRules]: a rule
    whose action is outside [allow], [review], [deny], or whose weight is
    no number, is accepted as a temporary rule although the validation
    of a load refuses it, and the store then no longer passes
    [_validateRules]. *)
Theorem temporary_rule_skips_validation
        (rule : value) (this : RuleEngine.t) (items : list value) :
  rules this = VArr items ->
  structure_invalid rule = Normal false ->
  find_by_id (Spec.field_of rule "id") items = Normal None ->
  action_listed (Spec.field_of rule "action") = false
  \/ typeof_number (Spec.field_of rule "weight") = false ->
  (exists e, validate_rule rule = Throw e)
  /\ exists this',
       addTemporaryRule rule this = Normal this'
       /\ exists e, _validateRules this' = Throw e.
Proof.
  intros Hr Hs Hfind Hbad.
  destruct (structure_valid_object rule Hs) as [props ->].
  assert (Hrefused : forall props',
             structure_invalid (VObj props') = Normal false ->
             lookup "action" props' = lookup "action" props ->
             lookup "weight" props' = lookup "weight" props ->
             exists e, validate_rule (VObj props') = Throw e).
  { intros props' Hs' Ha Hw. unfold validate_rule. rewrite Hs'. cbn [bind getp].
    rewrite Ha, Hw. unfold Spec.field_of in Hbad. cbn [getp] in Hbad.
    destruct Hbad as [Hbad | Hbad]; rewrite Hbad; cbn [negb].
    - eexists. reflexivity.
    - destruct (action_listed _); cbn [negb]; eexists; reflexivity. }
  split; [apply Hrefused; [exact Hs | reflexivity | reflexivity]|].
  unfold addTemporaryRule. rewrite Hs, Hr. cbn [bind getp].
  unfold Spec.field_of in Hfind. cbn [getp] in Hfind. rewrite Hfind. cbn [bind].
  eexists. split; [reflexivity|].
  unfold _validateRules. cbn [rules iterate bind].
  apply validate_each_last_throws. apply Hrefused.
  - unfold structure_invalid, or_else, falsy_prop in Hs |- *. cbn [getp bind] in Hs |- *.
    rewrite !lookup_set_prop_other by discriminate. exact Hs.
  - rewrite !lookup_set_prop_other by discriminate. reflexivity.
  - rewrite !lookup_set_prop_other by discriminate. reflexivity.
Qed.

Lemma temporary_rule_skips_validation_witness :
  (exists e, validate_rule Examples.unlisted_action_rule = Throw e)
  /\ exists this',
       addTemporaryRule Examples.unlisted_action_rule Examples.default_engine
       = Normal this'
       /\ exists e, _validateRules this' = Throw e.
Proof.
  apply (temporary_rule_skips_validation Examples.unlisted_action_rule
           Examples.default_engine default_rules).
  - reflexivity.
  - reflexivity.
  - vm_compute. reflexivity.
  - left. reflexivity.
Defined.
